(** * axi_fpga: a shallow embedding of drivers/misc/axi_fpga.c

    The driver gives one user process access to an FPGA on the AXI bus:
    a register window and a contiguous RAM buffer (mmap), cache
    maintenance around DMA (ioctl), and an interrupt event (read/poll).

    Every file operation of the driver is a function on an explicit
    kernel state.  The results of kernel services the driver calls but
    does not implement (request_irq, get_user_pages, dma_map_page,
    remap_pfn_range, a pending signal) are inputs of the operation that
    calls them. *)

From Stdlib Require Import ZArith List Bool Lia.
From Stdlib Require String Ascii DecimalString DecimalZ DecimalPos.
Import ListNotations.
Open Scope Z_scope.

(** ** Kernel constants and types the driver uses

    The driver is written for 32-bit ARM (it issues [MCR p15] in its
    probe function): [int], [unsigned int] and [unsigned long] are 32
    bits wide and pages are 4 KiB. *)
Module Kernel.

Definition EIO : Z := 5.
Definition EBUSY : Z := 16.
Definition EINVAL : Z := 22.
Definition ENOTTY : Z := 25.
Definition ERESTARTSYS : Z := 512.
Definition ENOMEM : Z := 12.
Definition ENODEV : Z := 19.

Definition POLLIN : Z := 1.
Definition POLLRDNORM : Z := 64.

Definition PAGE_SHIFT : Z := 12.
Definition PAGE_SIZE : Z := Z.shiftl 1 PAGE_SHIFT.

Definition IRQ_HANDLED : Z := 1.

(** Conversion to [unsigned int] / [unsigned long]. *)
Definition u32 (x : Z) : Z := x mod 2 ^ 32.

(** Conversion of a 32-bit unsigned value to [int]. *)
Definition s32 (x : Z) : Z :=
  if u32 x <? 2 ^ 31 then u32 x else u32 x - 2 ^ 32.

(** A C condition: any nonzero value is true. *)
Definition truthy (x : Z) : bool := negb (x =? 0).

Inductive dma_data_direction : Type :=
| DMA_TO_DEVICE
| DMA_FROM_DEVICE.

(** [_IOC(dir, type, nr, size)] of asm-generic/ioctl.h. *)
Definition _IOC (dir type nr size : Z) : Z :=
  Z.lor (Z.lor (Z.shiftl dir 30) (Z.shiftl type 8))
        (Z.lor nr (Z.shiftl size 16)).
Definition _IOC_WRITE : Z := 1.
Definition _IOC_READ : Z := 2.
Definition _IOW (type nr size : Z) : Z := _IOC _IOC_WRITE type nr size.
Definition _IOWR (type nr size : Z) : Z :=
  _IOC (Z.lor _IOC_READ _IOC_WRITE) type nr size.

(** Page protection: the permission bits and the memory type. *)
Record pgprot_t : Type := mk_pgprot {
  pte_bits : Z;
  pte_uncached : bool
}.

Definition pgprot_noncached (p : pgprot_t) : pgprot_t :=
  {| pte_bits := pte_bits p; pte_uncached := true |}.

End Kernel.
Export Kernel.

(** ** Data of the driver *)

(** [struct buffer_addr]: the descriptor user space passes to ioctl. *)
Record buffer_addr : Type := mk_buffer_addr {
  virt_addr : Z;
  phys_addr : Z;
  size : Z;
  direction : Z
}.

(** [sizeof(struct buffer_addr)]: four 32-bit fields. *)
Definition sizeof_buffer_addr : Z := 16.

(** 'a' *)
Definition ioc_magic : Z := 97.

Definition AXI_FPGA_GET_PAGE : Z := _IOWR ioc_magic 48 sizeof_buffer_addr.
Definition AXI_FPGA_GIVE_PAGE : Z := _IOW ioc_magic 49 sizeof_buffer_addr.
Definition AXI_FPGA_TAKE_PAGE : Z := _IOW ioc_magic 50 sizeof_buffer_addr.

(** [struct axi_fpga_drvdata], without the back pointers to the platform
    device, the misc device and the name.  [fpga_buffer_pages] is the
    page frame number of the first page of the buffer; the wait queue
    is the consumer of the [Interleaving] module below. *)
Record axi_fpga_drvdata : Type := mk_drvdata {
  dev_open : Z;
  irq_happened : Z;
  dev_physaddr : Z;
  dev_size : Z;
  slave_phys_addr : Z;
  fpga_buffer_pages : Z;
  fpga_buffer_npages : Z;
  irq_number : Z
}.

Definition set_dev_open (v : Z) (d : axi_fpga_drvdata) : axi_fpga_drvdata :=
  {| dev_open := v;
     irq_happened := irq_happened d;
     dev_physaddr := dev_physaddr d;
     dev_size := dev_size d;
     slave_phys_addr := slave_phys_addr d;
     fpga_buffer_pages := fpga_buffer_pages d;
     fpga_buffer_npages := fpga_buffer_npages d;
     irq_number := irq_number d |}.

(** [atomic_set(&d->irq_happened, v)] *)
Definition atomic_set_irq_happened (v : Z) (d : axi_fpga_drvdata)
  : axi_fpga_drvdata :=
  {| dev_open := dev_open d;
     irq_happened := v;
     dev_physaddr := dev_physaddr d;
     dev_size := dev_size d;
     slave_phys_addr := slave_phys_addr d;
     fpga_buffer_pages := fpga_buffer_pages d;
     fpga_buffer_npages := fpga_buffer_npages d;
     irq_number := irq_number d |}.

(** One call of the streaming DMA API. *)
Inductive dma_op : Type :=
| dma_map_page_op (page offset sz : Z) (dir : dma_data_direction)
| dma_sync_single_for_device_op (addr sz : Z) (dir : dma_data_direction)
| dma_sync_single_for_cpu_op (addr sz : Z) (dir : dma_data_direction).

(** One range installed by [remap_pfn_range]: [pr_len] bytes of virtual
    addresses from [pr_addr] on, backed by the page frames from [pr_pfn]
    on. *)
Record pfn_range : Type := mk_pfn_range {
  pr_addr : Z;
  pr_pfn : Z;
  pr_len : Z;
  pr_prot : pgprot_t
}.

(** [struct vm_area_struct], the fields the driver reads or writes.
    [vm_ops] is [true] once the driver has installed its (empty)
    operations table. *)
Record vm_area_struct : Type := mk_vma {
  vm_start : Z;
  vm_end : Z;
  vm_pgoff : Z;
  vm_page_prot : pgprot_t;
  vm_ops : bool
}.

(** The state the driver's operations act on: the device instance, the
    interrupt line (is the driver's handler installed), the DMA API
    calls made so far and the ranges installed in the caller's page
    table, newest first. *)
Record kernel : Type := mk_kernel {
  drv : axi_fpga_drvdata;
  irq_action : bool;
  dma_calls : list dma_op;
  page_table : list pfn_range
}.

(** ** A state monad over the kernel state *)

Definition M (A : Type) : Type := kernel -> A * kernel.

Definition ret {A : Type} (a : A) : M A := fun k => (a, k).

Definition bind {A B : Type} (c : M A) (f : A -> M B) : M B :=
  fun k => let (a, k') := c k in f a k'.

Notation "x <- c ;; f" := (bind c (fun x => f))
  (at level 61, c at next level, right associativity).
Notation "c ;;; f" := (bind c (fun _ => f))
  (at level 61, right associativity).

Definition get_drv : M axi_fpga_drvdata := fun k => (drv k, k).

Definition modify_drv (f : axi_fpga_drvdata -> axi_fpga_drvdata) : M unit :=
  fun k => (tt, {| drv := f (drv k);
                   irq_action := irq_action k;
                   dma_calls := dma_calls k;
                   page_table := page_table k |}).

(** *** Kernel services *)

(** [request_irq]: [res] is what the kernel answers; on 0 the handler
    is installed. *)
Definition request_irq (res : Z) : M Z :=
  fun k => (res, if res =? 0
                 then {| drv := drv k;
                         irq_action := true;
                         dma_calls := dma_calls k;
                         page_table := page_table k |}
                 else k).

Definition free_irq : M unit :=
  fun k => (tt, {| drv := drv k;
                   irq_action := false;
                   dma_calls := dma_calls k;
                   page_table := page_table k |}).

Definition dma_call (op : dma_op) : M unit :=
  fun k => (tt, {| drv := drv k;
                   irq_action := irq_action k;
                   dma_calls := op :: dma_calls k;
                   page_table := page_table k |}).

(** [dma_map_page]: [handle] is the bus address the kernel answers. *)
Definition dma_map_page (handle page offset sz : Z) (dir : dma_data_direction)
  : M Z :=
  dma_call (dma_map_page_op page offset sz dir) ;;; ret handle.

Definition dma_sync_single_for_device (addr sz : Z) (dir : dma_data_direction)
  : M unit :=
  dma_call (dma_sync_single_for_device_op addr sz dir).

Definition dma_sync_single_for_cpu (addr sz : Z) (dir : dma_data_direction)
  : M unit :=
  dma_call (dma_sync_single_for_cpu_op addr sz dir).

(** [remap_pfn_range(vma, addr, pfn, size, prot)]: [res] is what the
    kernel answers; on 0 the range is in the page table.  The kernel
    installs the range at [addr] as given. *)
Definition remap_pfn_range (res addr pfn sz : Z) (prot : pgprot_t) : M Z :=
  fun k => (res, if res =? 0
                 then {| drv := drv k;
                         irq_action := irq_action k;
                         dma_calls := dma_calls k;
                         page_table :=
                           {| pr_addr := addr; pr_pfn := pfn;
                              pr_len := sz; pr_prot := prot |}
                           :: page_table k |}
                 else k).

(** [wait_event_interruptible(wq, condition)]: 0 once the condition
    holds, [-ERESTARTSYS] when a signal is pending and it does not;
    [None] while the caller sleeps. *)
Definition wait_event_interruptible (condition signal_pending : bool)
  : option Z :=
  if condition then Some 0
  else if signal_pending then Some (- ERESTARTSYS)
  else None.

(** ** The driver's operations *)

(** [axi_fpga_irq_handler]: latch the event; the sleeping reader is
    woken by the wait queue (see [Interleaving]). *)
Definition axi_fpga_irq_handler : M Z :=
  modify_drv (atomic_set_irq_happened 1) ;;;
  ret IRQ_HANDLED.

(** [axi_fpga_open]; [irq_res] is the answer of [request_irq]. *)
Definition axi_fpga_open (irq_res : Z) : M Z :=
  d <- get_drv ;;
  if truthy (dev_open d) then ret (- EBUSY)
  else
    modify_drv (set_dev_open 1) ;;;
    r <- request_irq irq_res ;;
    if truthy r then ret (- EBUSY)
    else ret 0.

(** [axi_fpga_poll] returns [unsigned int]: the early [return -EIO] is
    converted.  [poll_wait] only queues the caller. *)
Definition axi_fpga_poll : M Z :=
  d <- get_drv ;;
  let mask := 0 in
  if negb (truthy (dev_open d)) then ret (u32 (- EIO))
  else
    let mask := if irq_happened d =? 1
                then Z.lor mask (Z.lor POLLIN POLLRDNORM)
                else mask in
    ret mask.

(** [axi_fpga_read]: [None] while the caller sleeps in
    [wait_event_interruptible]; the value the wait returns is dropped,
    as in the source. *)
Definition axi_fpga_read (signal_pending : bool) (k : kernel)
  : option (Z * kernel) :=
  let d := drv k in
  if negb (truthy (dev_open d)) then Some (- EIO, k)
  else
    match wait_event_interruptible (irq_happened d =? 1) signal_pending with
    | None => None
    | Some _ =>
        Some ((modify_drv (atomic_set_irq_happened 0) ;;; ret 0) k)
    end.

(** What the kernel answers to the one [get_user_pages] and the one
    [dma_map_page] of a [AXI_FPGA_GET_PAGE] call.  [gup_page] is
    stored in the local [page] only when at least one page was pinned;
    otherwise [page] keeps [page_uninit], whatever was on the stack. *)
Record ioctl_env : Type := mk_ioctl_env {
  gup_res : Z;
  gup_page : Z;
  page_uninit : Z;
  dma_handle : Z
}.

Definition get_user_pages (e : ioctl_env) (start nr_pages : Z) (page : Z)
  : M (Z * Z) :=
  ret (gup_res e, if 1 <=? gup_res e then gup_page e else page).

Definition set_phys_addr (v : Z) (b : buffer_addr) : buffer_addr :=
  {| virt_addr := virt_addr b;
     phys_addr := v;
     size := size b;
     direction := direction b |}.

(** [axi_fpga_ioctl].  [ubuf] is the descriptor in user memory that
    [arg] points to; the second component of the result is that
    descriptor after the call. *)
Definition axi_fpga_ioctl (e : ioctl_env) (cmd : Z) (ubuf : buffer_addr)
  : M (Z * buffer_addr) :=
  let buf_addr := ubuf in
  let retval := 0 in
  if cmd =? AXI_FPGA_GET_PAGE then
    rp <- get_user_pages e (virt_addr buf_addr) 1 (page_uninit e) ;;
    let res := fst rp in
    let page := snd rp in
    let retval := if negb (truthy res) then - EINVAL else retval in
    pa <- (if truthy (direction buf_addr)
           then dma_map_page (dma_handle e) page 0 (size buf_addr)
                  DMA_TO_DEVICE
           else dma_map_page (dma_handle e) page 0 (size buf_addr)
                  DMA_FROM_DEVICE) ;;
    let buf_addr := set_phys_addr pa buf_addr in
    ret (retval, buf_addr)
  else if cmd =? AXI_FPGA_GIVE_PAGE then
    (if truthy (direction buf_addr)
     then dma_sync_single_for_device (phys_addr buf_addr) (size buf_addr)
            DMA_TO_DEVICE
     else dma_sync_single_for_device (phys_addr buf_addr) (size buf_addr)
            DMA_FROM_DEVICE) ;;;
    ret (0, ubuf)
  else if cmd =? AXI_FPGA_TAKE_PAGE then
    (if truthy (direction buf_addr)
     then dma_sync_single_for_cpu (phys_addr buf_addr) (size buf_addr)
            DMA_TO_DEVICE
     else dma_sync_single_for_cpu (phys_addr buf_addr) (size buf_addr)
            DMA_FROM_DEVICE) ;;;
    ret (0, ubuf)
  else ret (- ENOTTY, ubuf).

(** [(1 << d->fpga_buffer_npages) * PAGE_SIZE], an [unsigned long]. *)
Definition buffer_length (d : axi_fpga_drvdata) : Z :=
  u32 (Z.shiftl 1 (fpga_buffer_npages d) * PAGE_SIZE).

(** [d->dev_size + (1 << d->fpga_buffer_npages) * PAGE_SIZE] *)
Definition expected_size (d : axi_fpga_drvdata) : Z :=
  u32 (dev_size d + buffer_length d).

Definition set_vm_page_prot (p : pgprot_t) (v : vm_area_struct)
  : vm_area_struct :=
  {| vm_start := vm_start v; vm_end := vm_end v; vm_pgoff := vm_pgoff v;
     vm_page_prot := p; vm_ops := vm_ops v |}.

Definition set_vm_ops (v : vm_area_struct) : vm_area_struct :=
  {| vm_start := vm_start v; vm_end := vm_end v; vm_pgoff := vm_pgoff v;
     vm_page_prot := vm_page_prot v; vm_ops := true |}.

(** [axi_fpga_mmap]; [res1] and [res2] are the answers of the two
    [remap_pfn_range] calls.  The second component of the result is
    the vma after the call. *)
Definition axi_fpga_mmap (res1 res2 : Z) (vma : vm_area_struct)
  : M (Z * vm_area_struct) :=
  d <- get_drv ;;
  if negb (truthy (dev_open d)) then ret (- EIO, vma)
  else if truthy (vm_pgoff vma) then ret (- EINVAL, vma)
  else
    let expected := expected_size d in
    let sz := u32 (vm_end vma - vm_start vma) in
    if negb (sz =? expected) then ret (- EINVAL, vma)
    else
      let vma := set_vm_page_prot (pgprot_noncached (vm_page_prot vma)) vma in
      let addr := vm_start vma in
      r1 <- remap_pfn_range res1 addr
              (Z.shiftr (dev_physaddr d) PAGE_SHIFT)
              (dev_size d) (vm_page_prot vma) ;;
      if truthy r1 then ret (- EIO, vma)
      else
        let addr := dev_size d in
        r2 <- remap_pfn_range res2 addr
                (fpga_buffer_pages d)
                (buffer_length d) (vm_page_prot vma) ;;
        if truthy r2 then ret (- EIO, vma)
        else
          let vma := set_vm_ops vma in
          ret (0, vma).

(** [axi_fpga_release] *)
Definition axi_fpga_release : M Z :=
  d <- get_drv ;;
  if negb (truthy (dev_open d)) then ret (- EIO)
  else
    free_irq ;;;
    modify_drv (set_dev_open 0) ;;;
    ret 0.

(** The physical address and protection a virtual address of the
    caller resolves to through the ranges the driver installed. *)
Fixpoint translate (pt : list pfn_range) (va : Z) : option (Z * pgprot_t) :=
  match pt with
  | [] => None
  | r :: pt' =>
      if (pr_addr r <=? va) && (va <? pr_addr r + pr_len r)
      then Some (Z.shiftl (pr_pfn r) PAGE_SHIFT + (va - pr_addr r), pr_prot r)
      else translate pt' va
  end.

(** ** The interrupt handler against the reader

    [axi_fpga_read] is not atomic: the caller can sleep inside
    [wait_event_interruptible], and the interrupt handler can run
    between any two of its statements.  The consumer is therefore a
    small program counter, and the system moves by labelled steps. *)
Module Interleaving.

(** Where the consumer is: outside [axi_fpga_read], inside the wait,
    or past the wait (which returned [r]) and before the
    [atomic_set]. *)
Inductive pc : Type :=
| Idle
| InWait
| AfterWait (r : Z).

(** [returned] lists the values [axi_fpga_read] has returned, newest
    first. *)
Record sys : Type := mk_sys {
  kern : kernel;
  consumer : pc;
  returned : list Z
}.

(** [Irq]: the hardware raises the interrupt and the handler runs.
    [CallRead]: the consumer enters [axi_fpga_read].
    [Resume sig]: the sleeping consumer evaluates the wait again,
    with or without a signal pending.
    [Finish]: the consumer runs the two statements after the wait. *)
Inductive label : Type :=
| Irq
| CallRead
| Resume (signal_pending : bool)
| Finish.

Definition with_kern (k : kernel) (s : sys) : sys :=
  {| kern := k; consumer := consumer s; returned := returned s |}.

Definition exec (l : label) (s : sys) : option sys :=
  match l, consumer s with
  | Irq, _ =>
      if irq_action (kern s)
      then Some (with_kern (snd (axi_fpga_irq_handler (kern s))) s)
      else None
  | CallRead, Idle =>
      if negb (truthy (dev_open (drv (kern s))))
      then Some {| kern := kern s; consumer := Idle;
                   returned := - EIO :: returned s |}
      else Some {| kern := kern s; consumer := InWait;
                   returned := returned s |}
  | Resume sig, InWait =>
      match wait_event_interruptible
              (irq_happened (drv (kern s)) =? 1) sig with
      | Some r => Some {| kern := kern s; consumer := AfterWait r;
                          returned := returned s |}
      | None => None
      end
  | Finish, AfterWait _ =>
      let (r, k) := (modify_drv (atomic_set_irq_happened 0) ;;; ret 0)
                      (kern s) in
      Some {| kern := k; consumer := Idle; returned := r :: returned s |}
  | _, _ => None
  end.

Fixpoint run (ls : list label) (s : sys) : option sys :=
  match ls with
  | [] => Some s
  | l :: ls' =>
      match exec l s with
      | Some s' => run ls' s'
      | None => None
      end
  end.

(** The same machine as a relation. *)
Inductive step : sys -> label -> sys -> Prop :=
| step_irq s :
    irq_action (kern s) = true ->
    step s Irq (with_kern (snd (axi_fpga_irq_handler (kern s))) s)
| step_call_closed s :
    consumer s = Idle ->
    dev_open (drv (kern s)) = 0 ->
    step s CallRead {| kern := kern s; consumer := Idle;
                       returned := - EIO :: returned s |}
| step_call_open s :
    consumer s = Idle ->
    dev_open (drv (kern s)) <> 0 ->
    step s CallRead {| kern := kern s; consumer := InWait;
                       returned := returned s |}
| step_resume s sig r :
    consumer s = InWait ->
    wait_event_interruptible (irq_happened (drv (kern s)) =? 1) sig
      = Some r ->
    step s (Resume sig) {| kern := kern s; consumer := AfterWait r;
                           returned := returned s |}
| step_finish s r :
    consumer s = AfterWait r ->
    step s Finish
      {| kern := snd (modify_drv (atomic_set_irq_happened 0) (kern s));
         consumer := Idle;
         returned := 0 :: returned s |}.

Inductive steps : sys -> list label -> sys -> Prop :=
| steps_nil s : steps s [] s
| steps_cons s l s' ls s'' :
    step s l s' -> steps s' ls s'' -> steps s (l :: ls) s''.

(** The kernel state once the handler has run. *)
Definition latched (k : kernel) : kernel :=
  snd (axi_fpga_irq_handler k).

(** The kernel state once the reader has cleared the event. *)
Definition cleared (k : kernel) : kernel :=
  snd (modify_drv (atomic_set_irq_happened 0) k).

(** An open session: the device is marked open and the handler is
    installed. *)
Definition session_open (k : kernel) : Prop :=
  dev_open (drv k) <> 0 /\ irq_action k = true.

End Interleaving.

(** [n] rounds of a successful open followed by release; the result
    lists the pair of return values of every round. *)
Fixpoint open_close_cycles (n : nat) (k : kernel) : list (Z * Z) * kernel :=
  match n with
  | O => ([], k)
  | S n' =>
      let (ro, k1) := axi_fpga_open 0 k in
      let (rc, k2) := axi_fpga_release k1 in
      let (rs, k3) := open_close_cycles n' k2 in
      ((ro, rc) :: rs, k3)
  end.

(** [n] calls of poll in a row. *)
Fixpoint polls (n : nat) (k : kernel) : list Z * kernel :=
  match n with
  | O => ([], k)
  | S n' =>
      let (m, k1) := axi_fpga_poll k in
      let (ms, k2) := polls n' k1 in
      (m :: ms, k2)
  end.

(** The DMA direction the ioctl derives from [buf_addr.direction]. *)
Definition dma_dir_of (dir : Z) : dma_data_direction :=
  if truthy dir then DMA_TO_DEVICE else DMA_FROM_DEVICE.

Definition log_dma (op : dma_op) (k : kernel) : kernel :=
  {| drv := drv k; irq_action := irq_action k;
     dma_calls := op :: dma_calls k; page_table := page_table k |}.

(** ** Entries into the driver

    One entry: a call through the table [axi_fpga_fops], with the
    answers of the kernel services it uses, or the interrupt.  The
    handler runs only while [request_irq] has installed it. *)
Inductive entry : Type :=
| call_open (irq_res : Z)
| call_read (signal_pending : bool)
| call_poll
| call_mmap (res1 res2 : Z) (vma : vm_area_struct)
| call_ioctl (e : ioctl_env) (cmd : Z) (ubuf : buffer_addr)
| call_release
| raise_irq.

(** The kernel state after an entry; a read that sleeps has changed
    nothing yet. *)
Definition enter (c : entry) (k : kernel) : kernel :=
  match c with
  | call_open irq_res => snd (axi_fpga_open irq_res k)
  | call_read sig =>
      match axi_fpga_read sig k with
      | Some (_, k') => k'
      | None => k
      end
  | call_poll => snd (axi_fpga_poll k)
  | call_mmap res1 res2 vma => snd (axi_fpga_mmap res1 res2 vma k)
  | call_ioctl e cmd ubuf => snd (axi_fpga_ioctl e cmd ubuf k)
  | call_release => snd (axi_fpga_release k)
  | raise_irq => if irq_action k then snd (axi_fpga_irq_handler k) else k
  end.

Definition enter_all (cs : list entry) (k : kernel) : kernel :=
  fold_left (fun k' c => enter c k') cs k.

(** ** Probe *)

(** [struct resource]: the two fields the probe reads. *)
Record resource : Type := mk_resource {
  res_start : Z;
  res_end : Z
}.

(** What the platform answers during [axi_fpga_drv_probe]: the three
    [platform_get_resource] lookups, whether [devm_kzalloc] and
    [devm_request_mem_region] succeed, the first page frame of the
    block [alloc_pages] returns (or [None] for NULL), and the results
    of [misc_register] and [sysfs_create_group]. *)
Record probe_env : Type := mk_probe_env {
  mem0 : option resource;
  mem1 : option resource;
  irq0 : option resource;
  kzalloc_ok : bool;
  mem_region_ok : bool;
  alloc_pages_res : option Z;
  misc_register_res : Z;
  sysfs_create_group_res : Z
}.

(** The outcome of the probe: its return value, the driver data
    attached to the device when it returns, and whether the misc
    device and the sysfs group exist. *)
Record probe_result : Type := mk_probe_result {
  probe_ret : Z;
  probe_drvdata : option axi_fpga_drvdata;
  misc_registered : bool;
  sysfs_group : bool
}.

Definition probe_fails (r : Z) (d : option axi_fpga_drvdata) : probe_result :=
  {| probe_ret := r; probe_drvdata := d;
     misc_registered := false; sysfs_group := false |}.

(** [page_to_phys] *)
Definition page_to_phys (pfn : Z) : Z := u32 (Z.shiftl pfn PAGE_SHIFT).

(** [axi_fpga_drv_probe].  The driver data starts zeroed
    ([devm_kzalloc]); the results of [misc_register] and
    [sysfs_create_group] are only logged.  The fields of a resource
    are [resource_size_t], 32 bits unsigned; [irq_number] is an
    [int], so the start of the interrupt resource is converted. *)
Definition axi_fpga_drv_probe (e : probe_env) : probe_result :=
  match mem0 e with
  | None => probe_fails (- ENODEV) None
  | Some control =>
  match mem1 e with
  | None => probe_fails (- ENODEV) None
  | Some buffer =>
  match irq0 e with
  | None => probe_fails (- ENODEV) None
  | Some irq =>
    if negb (kzalloc_ok e) then probe_fails (- ENOMEM) None
    else
      let d := {| dev_open := 0;
                  irq_happened := 0;
                  dev_physaddr := res_start control;
                  dev_size := u32 (res_end control - res_start control + 1);
                  slave_phys_addr := 0;
                  fpga_buffer_pages := 0;
                  fpga_buffer_npages := 0;
                  irq_number := s32 (res_start irq) |} in
      if negb (mem_region_ok e) then probe_fails (- ENODEV) (Some d)
      else
        let npages := u32 (res_end buffer + 1) in
        match alloc_pages_res e with
        | None =>
            probe_fails (-1)
              (Some {| dev_open := 0;
                       irq_happened := 0;
                       dev_physaddr := dev_physaddr d;
                       dev_size := dev_size d;
                       slave_phys_addr := 0;
                       fpga_buffer_pages := 0;
                       fpga_buffer_npages := npages;
                       irq_number := irq_number d |})
        | Some pfn =>
            {| probe_ret := 0;
               probe_drvdata :=
                 Some {| dev_open := 0;
                         irq_happened := 0;
                         dev_physaddr := dev_physaddr d;
                         dev_size := dev_size d;
                         slave_phys_addr := page_to_phys pfn;
                         fpga_buffer_pages := pfn;
                         fpga_buffer_npages := npages;
                         irq_number := irq_number d |};
               misc_registered := misc_register_res e =? 0;
               sysfs_group := sysfs_create_group_res e =? 0 |}
        end
  end end end.

(** The kernel state in which the probed device starts: nothing
    requested, nothing mapped. *)
Definition boot (d : axi_fpga_drvdata) : kernel :=
  {| drv := d; irq_action := false; dma_calls := []; page_table := [] |}.

(** ** The sysfs attributes *)

(** An [unsigned long] read as [long], as [%ld] does. *)
Definition as_long (v : Z) : Z :=
  if u32 v <? 2 ^ 31 then u32 v else u32 v - 2 ^ 32.

Definition newline : String.string :=
  String.String (Ascii.ascii_of_nat 10) String.EmptyString.

(** [sprintf(buf, "%ld\n", v)]: the number of characters written and
    the text. *)
Definition sprintf_ld (v : Z) : Z * String.string :=
  let text :=
    String.append
      (DecimalString.NilZero.string_of_int (Z.to_int (as_long v)))
      newline in
  (Z.of_nat (String.length text), text).

Definition axi_fpga_get_phys_addr (d : axi_fpga_drvdata)
  : Z * String.string :=
  sprintf_ld (slave_phys_addr d).

Definition axi_fpga_get_buffer_length (d : axi_fpga_drvdata)
  : Z * String.string :=
  sprintf_ld (buffer_length d).

Definition axi_fpga_get_control_length (d : axi_fpga_drvdata)
  : Z * String.string :=
  sprintf_ld (dev_size d).

(** The reader of an attribute: the text up to the newline that ends
    it, as a decimal number. *)
Fixpoint chomp (s : String.string) : option String.string :=
  match s with
  | String.EmptyString => None
  | String.String c rest =>
      match rest with
      | String.EmptyString =>
          if Ascii.eqb c (Ascii.ascii_of_nat 10)
          then Some String.EmptyString else None
      | _ =>
          match chomp rest with
          | Some r => Some (String.String c r)
          | None => None
          end
      end
  end.

Definition read_attribute (s : String.string) : option Z :=
  match chomp s with
  | Some line =>
      match DecimalString.NilZero.int_of_string line with
      | Some d => Some (Z.of_int d)
      | None => None
      end
  | None => None
  end.

(** How many reads have returned 0. *)
Fixpoint successes (rs : list Z) : nat :=
  match rs with
  | [] => O
  | r :: rs' => if r =? 0 then S (successes rs') else successes rs'
  end.

(** How many labels of a run are an interrupt or a signal. *)
Fixpoint wakeups (ls : list Interleaving.label) : nat :=
  match ls with
  | [] => O
  | Interleaving.Irq :: ls' => S (wakeups ls')
  | Interleaving.Resume true :: ls' => S (wakeups ls')
  | _ :: ls' => wakeups ls'
  end.

(** Two device instances with the same geometry: register window,
    buffer and interrupt number. *)
Definition same_geometry (d d' : axi_fpga_drvdata) : Prop :=
  dev_physaddr d' = dev_physaddr d /\
  dev_size d' = dev_size d /\
  slave_phys_addr d' = slave_phys_addr d /\
  fpga_buffer_pages d' = fpga_buffer_pages d /\
  fpga_buffer_npages d' = fpga_buffer_npages d /\
  irq_number d' = irq_number d.

(** The two flags are 0 or 1, and the handler is installed only while
    the device is marked open. *)
Definition session_inv (k : kernel) : Prop :=
  (dev_open (drv k) = 0 \/ dev_open (drv k) = 1) /\
  (irq_happened (drv k) = 0 \/ irq_happened (drv k) = 1) /\
  (irq_action k = true -> dev_open (drv k) = 1).

(** An event is pending: latched in [irq_happened], or already taken
    by a reader that has left the wait and not yet returned. *)
Definition pending (s : Interleaving.sys) : nat :=
  match Interleaving.consumer s with
  | Interleaving.AfterWait _ => 1%nat
  | _ => if irq_happened (drv (Interleaving.kern s)) =? 1 then 1%nat else O
  end.

(** ** A sample device

    The geometry of the end-to-end scenario: a 4096-byte register
    window and a buffer of 2^2 pages. *)
Definition sample_drvdata : axi_fpga_drvdata :=
  {| dev_open := 0;
     irq_happened := 0;
     dev_physaddr := 1073741824;
     dev_size := 4096;
     slave_phys_addr := 520093696;
     fpga_buffer_pages := 126976;
     fpga_buffer_npages := 2;
     irq_number := 61 |}.

Definition closed_kernel : kernel :=
  {| drv := sample_drvdata; irq_action := false;
     dma_calls := []; page_table := [] |}.

Definition open_kernel : kernel := snd (axi_fpga_open 0 closed_kernel).

(** The open device with the event latched. *)
Definition latched_kernel : kernel := snd (axi_fpga_irq_handler open_kernel).

(** A vma of the expected size, where mmap(2) would place it. *)
Definition sample_vma : vm_area_struct :=
  {| vm_start := 3053453312;
     vm_end := 3053453312 + 4096 + 4 * 4096;
     vm_pgoff := 0;
     vm_page_prot := {| pte_bits := 3; pte_uncached := false |};
     vm_ops := false |}.

(** The same vma one page short. *)
Definition short_vma : vm_area_struct :=
  {| vm_start := 3053453312;
     vm_end := 3053453312 + 4 * 4096;
     vm_pgoff := 0;
     vm_page_prot := {| pte_bits := 3; pte_uncached := false |};
     vm_ops := false |}.

Definition sample_buffer_addr : buffer_addr :=
  {| virt_addr := 3053457408; phys_addr := 0; size := 4096; direction := 1 |}.

(** [get_user_pages] pins nothing and answers 0. *)
Definition gup_nothing : ioctl_env :=
  {| gup_res := 0; gup_page := 0; page_uninit := 3735928559;
     dma_handle := 4276993775 |}.

(** [get_user_pages] fails with [-EFAULT]. *)
Definition gup_efault : ioctl_env :=
  {| gup_res := -14; gup_page := 0; page_uninit := 3735928559;
     dma_handle := 4276993775 |}.

(** The platform data behind the sample device: the register window
    0x40000000 to 0x40000fff, the buffer order encoded as [end + 1],
    interrupt 61. *)
Definition sample_probe_env : probe_env :=
  {| mem0 := Some {| res_start := 1073741824; res_end := 1073745919 |};
     mem1 := Some {| res_start := 0; res_end := 1 |};
     irq0 := Some {| res_start := 61; res_end := 61 |};
     kzalloc_ok := true;
     mem_region_ok := true;
     alloc_pages_res := Some 126976;
     misc_register_res := 0;
     sysfs_create_group_res := 0 |}.

(** A device whose register window and buffer together exceed the
    range of [unsigned long]: the window 0x1000 to 0xffffffff and a
    buffer of 2^1 pages.  The probe builds it from those resources. *)
Definition wrapping_probe_env : probe_env :=
  {| mem0 := Some {| res_start := 4096; res_end := 4294967295 |};
     mem1 := Some {| res_start := 0; res_end := 0 |};
     irq0 := Some {| res_start := 61; res_end := 61 |};
     kzalloc_ok := true;
     mem_region_ok := true;
     alloc_pages_res := Some 126976;
     misc_register_res := 0;
     sysfs_create_group_res := 0 |}.

Definition wrapping_drvdata : axi_fpga_drvdata :=
  {| dev_open := 0;
     irq_happened := 0;
     dev_physaddr := 4096;
     dev_size := 4294963200;
     slave_phys_addr := 520093696;
     fpga_buffer_pages := 126976;
     fpga_buffer_npages := 1;
     irq_number := 61 |}.



(** ** Properties *)

Lemma truthy_true (x : Z) : truthy x = true <-> x <> 0.
Proof.
  unfold truthy. destruct (Z.eqb_spec x 0); simpl; split; congruence.
Qed.

Lemma truthy_false (x : Z) : truthy x = false <-> x = 0.
Proof.
  unfold truthy. destruct (Z.eqb_spec x 0); simpl; split; congruence.
Qed.

Lemma kernel_eta (k : kernel) :
  {| drv := drv k; irq_action := irq_action k;
     dma_calls := dma_calls k; page_table := page_table k |} = k.
Proof. destruct k; reflexivity. Qed.

Lemma set_dev_open_same (d : axi_fpga_drvdata) :
  set_dev_open (dev_open d) d = d.
Proof. destruct d; reflexivity. Qed.

Lemma set_dev_open_twice (v w : Z) (d : axi_fpga_drvdata) :
  set_dev_open v (set_dev_open w d) = set_dev_open v d.
Proof. reflexivity. Qed.

(** *** Session: open and release *)

Lemma open_when_open (irq_res : Z) (k : kernel) :
  dev_open (drv k) <> 0 -> axi_fpga_open irq_res k = (- EBUSY, k).
Proof.
  intros Hopen. unfold axi_fpga_open, bind, get_drv.
  apply truthy_true in Hopen. rewrite Hopen. reflexivity.
Qed.

Lemma release_when_closed (k : kernel) :
  dev_open (drv k) = 0 -> axi_fpga_release k = (- EIO, k).
Proof.
  intros Hclosed. unfold axi_fpga_release, bind, get_drv.
  apply truthy_false in Hclosed. rewrite Hclosed. reflexivity.
Qed.

(** A successful open from a closed state marks the device open and
    installs the handler. *)
Lemma open_when_closed_ok (k : kernel) :
  dev_open (drv k) = 0 ->
  axi_fpga_open 0 k =
    (0, {| drv := set_dev_open 1 (drv k); irq_action := true;
           dma_calls := dma_calls k; page_table := page_table k |}).
Proof.
  intros Hclosed. unfold axi_fpga_open, bind, get_drv.
  apply truthy_false in Hclosed. rewrite Hclosed. reflexivity.
Qed.

(** A failed [request_irq] leaves [dev_open] at 1. *)
Lemma open_when_closed_irq_fails (irq_res : Z) (k : kernel) :
  dev_open (drv k) = 0 ->
  irq_res <> 0 ->
  axi_fpga_open irq_res k =
    (- EBUSY, {| drv := set_dev_open 1 (drv k); irq_action := irq_action k;
                 dma_calls := dma_calls k; page_table := page_table k |}).
Proof.
  intros Hclosed Hres. unfold axi_fpga_open, bind, get_drv.
  apply truthy_false in Hclosed. rewrite Hclosed. simpl.
  unfold request_irq, modify_drv. simpl.
  destruct (Z.eqb_spec irq_res 0) as [E | _]; [contradiction |].
  apply truthy_true in Hres. rewrite Hres. reflexivity.
Qed.

Lemma release_when_open (k : kernel) :
  dev_open (drv k) <> 0 ->
  axi_fpga_release k =
    (0, {| drv := set_dev_open 0 (drv k); irq_action := false;
           dma_calls := dma_calls k; page_table := page_table k |}).
Proof.
  intros Hopen. unfold axi_fpga_release, bind, get_drv.
  apply truthy_true in Hopen. rewrite Hopen. reflexivity.
Qed.

(** One successful open followed by release returns 0 twice and
    restores the device instance. *)
Lemma open_close_round (k : kernel) :
  dev_open (drv k) = 0 ->
  exists k',
    axi_fpga_open 0 k = (0, k') /\
    axi_fpga_release k' =
      (0, {| drv := drv k; irq_action := false;
             dma_calls := dma_calls k; page_table := page_table k |}).
Proof.
  intros Hclosed. eexists. split.
  - apply open_when_closed_ok; assumption.
  - rewrite release_when_open by (simpl; discriminate).
    simpl. rewrite set_dev_open_twice, <- Hclosed, set_dev_open_same.
    reflexivity.
Qed.

Lemma open_close_cycles_spec (n : nat) (k : kernel) :
  dev_open (drv k) = 0 ->
  fst (open_close_cycles n k) = repeat (0, 0) n /\
  drv (snd (open_close_cycles n k)) = drv k /\
  dma_calls (snd (open_close_cycles n k)) = dma_calls k /\
  page_table (snd (open_close_cycles n k)) = page_table k /\
  irq_action (snd (open_close_cycles n k)) =
    match n with O => irq_action k | S _ => false end.
Proof.
  revert k. induction n as [| n IH]; intros k Hclosed.
  - simpl. repeat split.
  - destruct (open_close_round k Hclosed) as (k1 & Ho & Hr).
    cbn [open_close_cycles]. rewrite Ho, Hr.
    set (k2 := {| drv := drv k; irq_action := false;
                  dma_calls := dma_calls k; page_table := page_table k |}).
    destruct (IH k2 Hclosed) as (Hrs & Hd & Hdma & Hpt & Hirq).
    destruct (open_close_cycles n k2) as [rs k3]. simpl in *.
    repeat split; try congruence.
    destruct n; assumption.
Qed.

(** C8.  The session state machine of the driver.  Open on a device
    that is open fails with [-EBUSY] and changes nothing; release on a
    device that is closed fails with [-EIO] and changes nothing; and
    any number of rounds of a successful open followed by release, from
    a closed state, all return 0 and leave the device instance (and,
    when the interrupt line was free at the start, the whole kernel
    state) as it was, so that a further open succeeds and marks the
    device open with the handler installed. *)
Theorem session_state_machine
  (k_open k_closed : kernel) (irq_res : Z) (n : nat) :
  dev_open (drv k_open) <> 0 ->
  dev_open (drv k_closed) = 0 ->
  axi_fpga_open irq_res k_open = (- EBUSY, k_open) /\
  axi_fpga_release k_closed = (- EIO, k_closed) /\
  fst (open_close_cycles n k_closed) = repeat (0, 0) n /\
  drv (snd (open_close_cycles n k_closed)) = drv k_closed /\
  (irq_action k_closed = false ->
   snd (open_close_cycles n k_closed) = k_closed) /\
  fst (axi_fpga_open 0 (snd (open_close_cycles n k_closed))) = 0 /\
  dev_open (drv (snd (axi_fpga_open 0 (snd (open_close_cycles n k_closed)))))
    = 1 /\
  irq_action (snd (axi_fpga_open 0 (snd (open_close_cycles n k_closed))))
    = true.
Proof.
  intros Hopen Hclosed.
  destruct (open_close_cycles_spec n k_closed Hclosed)
    as (Hrs & Hd & Hdma & Hpt & Hirq).
  split; [apply open_when_open; assumption |].
  split; [apply release_when_closed; assumption |].
  split; [assumption |]. split; [assumption |].
  split.
  - intros Hfree.
    destruct (snd (open_close_cycles n k_closed)) as [d i c p].
    destruct k_closed as [d0 i0 c0 p0]. simpl in *. subst.
    destruct n; reflexivity.
  - rewrite open_when_closed_ok by congruence. simpl. auto.
Qed.

(** C2.  From a closed state, an open whose [request_irq] fails returns
    [-EBUSY] with [dev_open] already set to 1 and the handler not
    installed: the device is left marked open, and every later open is
    refused with [-EBUSY] whatever [request_irq] would answer. *)
Theorem open_irq_failure_leaves_device_open
  (k : kernel) (irq_res irq_res' : Z) :
  dev_open (drv k) = 0 ->
  irq_res <> 0 ->
  fst (axi_fpga_open irq_res k) = - EBUSY /\
  dev_open (drv (snd (axi_fpga_open irq_res k))) = 1 /\
  irq_action (snd (axi_fpga_open irq_res k)) = irq_action k /\
  axi_fpga_open irq_res' (snd (axi_fpga_open irq_res k)) =
    (- EBUSY, snd (axi_fpga_open irq_res k)).
Proof.
  intros Hclosed Hres.
  rewrite (open_when_closed_irq_fails irq_res k Hclosed Hres). simpl.
  repeat split.
Qed.

Lemma open_irq_failure_leaves_device_open_witness :
  fst (axi_fpga_open (- EBUSY) closed_kernel) = - EBUSY /\
  dev_open (drv (snd (axi_fpga_open (- EBUSY) closed_kernel))) = 1 /\
  irq_action (snd (axi_fpga_open (- EBUSY) closed_kernel)) = false /\
  axi_fpga_open 0 (snd (axi_fpga_open (- EBUSY) closed_kernel)) =
    (- EBUSY, snd (axi_fpga_open (- EBUSY) closed_kernel)).
Proof.
  apply (open_irq_failure_leaves_device_open closed_kernel (- EBUSY) 0).
  - reflexivity.
  - discriminate.
Defined.

Lemma session_state_machine_witness :
  axi_fpga_open 0 open_kernel = (- EBUSY, open_kernel) /\
  axi_fpga_release closed_kernel = (- EIO, closed_kernel) /\
  fst (open_close_cycles 3 closed_kernel) = repeat (0, 0) 3 /\
  drv (snd (open_close_cycles 3 closed_kernel)) = drv closed_kernel /\
  (irq_action closed_kernel = false ->
   snd (open_close_cycles 3 closed_kernel) = closed_kernel) /\
  fst (axi_fpga_open 0 (snd (open_close_cycles 3 closed_kernel))) = 0 /\
  dev_open
    (drv (snd (axi_fpga_open 0 (snd (open_close_cycles 3 closed_kernel)))))
    = 1 /\
  irq_action (snd (axi_fpga_open 0 (snd (open_close_cycles 3 closed_kernel))))
    = true.
Proof.
  apply (session_state_machine open_kernel closed_kernel 0 3).
  - vm_compute. discriminate.
  - reflexivity.
Defined.

(** *** The control calls *)

Lemma ioctl_get_page (e : ioctl_env) (b : buffer_addr) (k : kernel) :
  axi_fpga_ioctl e AXI_FPGA_GET_PAGE b k =
    ((if gup_res e =? 0 then - EINVAL else 0,
      set_phys_addr (dma_handle e) b),
     log_dma (dma_map_page_op
                (if 1 <=? gup_res e then gup_page e else page_uninit e)
                0 (size b) (dma_dir_of (direction b))) k).
Proof.
  unfold axi_fpga_ioctl.
  replace (AXI_FPGA_GET_PAGE =? AXI_FPGA_GET_PAGE) with true by reflexivity.
  unfold bind, get_user_pages, ret, dma_dir_of, truthy. cbn [fst snd].
  destruct (gup_res e =? 0), (direction b =? 0); reflexivity.
Qed.

Lemma ioctl_give_page (e : ioctl_env) (b : buffer_addr) (k : kernel) :
  axi_fpga_ioctl e AXI_FPGA_GIVE_PAGE b k =
    ((0, b),
     log_dma (dma_sync_single_for_device_op
                (phys_addr b) (size b) (dma_dir_of (direction b))) k).
Proof.
  unfold axi_fpga_ioctl.
  replace (AXI_FPGA_GIVE_PAGE =? AXI_FPGA_GET_PAGE) with false by reflexivity.
  replace (AXI_FPGA_GIVE_PAGE =? AXI_FPGA_GIVE_PAGE) with true by reflexivity.
  unfold dma_dir_of. destruct (truthy (direction b)); reflexivity.
Qed.

Lemma ioctl_take_page (e : ioctl_env) (b : buffer_addr) (k : kernel) :
  axi_fpga_ioctl e AXI_FPGA_TAKE_PAGE b k =
    ((0, b),
     log_dma (dma_sync_single_for_cpu_op
                (phys_addr b) (size b) (dma_dir_of (direction b))) k).
Proof.
  unfold axi_fpga_ioctl.
  replace (AXI_FPGA_TAKE_PAGE =? AXI_FPGA_GET_PAGE) with false by reflexivity.
  replace (AXI_FPGA_TAKE_PAGE =? AXI_FPGA_GIVE_PAGE) with false by reflexivity.
  replace (AXI_FPGA_TAKE_PAGE =? AXI_FPGA_TAKE_PAGE) with true by reflexivity.
  unfold dma_dir_of. destruct (truthy (direction b)); reflexivity.
Qed.

(** Any other command is refused and does nothing. *)
Lemma ioctl_unknown_command (e : ioctl_env) (cmd : Z) (b : buffer_addr)
  (k : kernel) :
  cmd <> AXI_FPGA_GET_PAGE ->
  cmd <> AXI_FPGA_GIVE_PAGE ->
  cmd <> AXI_FPGA_TAKE_PAGE ->
  axi_fpga_ioctl e cmd b k = ((- ENOTTY, b), k).
Proof.
  intros H1 H2 H3. unfold axi_fpga_ioctl.
  apply Z.eqb_neq in H1, H2, H3. rewrite H1, H2, H3. reflexivity.
Qed.

(** C10.  [AXI_FPGA_GIVE_PAGE] calls [dma_sync_single_for_device] and
    [AXI_FPGA_TAKE_PAGE] calls [dma_sync_single_for_cpu] on the address
    and size of the descriptor, whatever they are and whatever the
    device state and the earlier DMA calls; the DMA direction is
    [DMA_TO_DEVICE] exactly when the descriptor's direction is nonzero.
    Both return 0 and leave the descriptor, the device instance, the
    interrupt line and the page table as they were. *)
Theorem give_take_page_always_sync
  (e : ioctl_env) (b : buffer_addr) (k : kernel) :
  let give := axi_fpga_ioctl e AXI_FPGA_GIVE_PAGE b k in
  let take := axi_fpga_ioctl e AXI_FPGA_TAKE_PAGE b k in
  fst give = (0, b) /\
  dma_calls (snd give) =
    dma_sync_single_for_device_op
      (phys_addr b) (size b)
      (if direction b =? 0 then DMA_FROM_DEVICE else DMA_TO_DEVICE)
    :: dma_calls k /\
  drv (snd give) = drv k /\
  irq_action (snd give) = irq_action k /\
  page_table (snd give) = page_table k /\
  fst take = (0, b) /\
  dma_calls (snd take) =
    dma_sync_single_for_cpu_op
      (phys_addr b) (size b)
      (if direction b =? 0 then DMA_FROM_DEVICE else DMA_TO_DEVICE)
    :: dma_calls k /\
  drv (snd take) = drv k /\
  irq_action (snd take) = irq_action k /\
  page_table (snd take) = page_table k.
Proof.
  cbv zeta. rewrite ioctl_give_page, ioctl_take_page.
  unfold dma_dir_of, truthy. simpl.
  destruct (direction b =? 0); simpl; repeat split.
Qed.

(** The entry points that do test [dev_open]: on a closed device read
    and mmap return [-EIO], poll returns [-EIO] converted to its
    [unsigned int] result, and none of them changes anything. *)
Lemma closed_read_poll_mmap_rejected
  (k : kernel) (sig : bool) (res1 res2 : Z) (vma : vm_area_struct) :
  dev_open (drv k) = 0 ->
  axi_fpga_read sig k = Some (- EIO, k) /\
  axi_fpga_poll k = (4294967291, k) /\
  axi_fpga_mmap res1 res2 vma k = ((- EIO, vma), k).
Proof.
  intros Hclosed. apply truthy_false in Hclosed.
  unfold axi_fpga_read, axi_fpga_poll, axi_fpga_mmap, bind, get_drv.
  rewrite Hclosed. repeat split.
Qed.

(** C1.  [axi_fpga_ioctl] never looks at [dev_open]: on a closed device
    the three commands are not refused with [-EIO].  Give and take
    return 0, get-page returns 0 or [-EINVAL], and each performs its
    DMA call. *)
Theorem ioctl_on_closed_device_not_rejected
  (e : ioctl_env) (b : buffer_addr) (k : kernel) :
  dev_open (drv k) = 0 ->
  fst (axi_fpga_ioctl e AXI_FPGA_GIVE_PAGE b k) = (0, b) /\
  fst (fst (axi_fpga_ioctl e AXI_FPGA_TAKE_PAGE b k)) = 0 /\
  fst (fst (axi_fpga_ioctl e AXI_FPGA_GET_PAGE b k)) <> - EIO /\
  dma_calls (snd (axi_fpga_ioctl e AXI_FPGA_GIVE_PAGE b k)) =
    dma_sync_single_for_device_op
      (phys_addr b) (size b) (dma_dir_of (direction b)) :: dma_calls k /\
  dma_calls (snd (axi_fpga_ioctl e AXI_FPGA_TAKE_PAGE b k)) =
    dma_sync_single_for_cpu_op
      (phys_addr b) (size b) (dma_dir_of (direction b)) :: dma_calls k /\
  length (dma_calls (snd (axi_fpga_ioctl e AXI_FPGA_GET_PAGE b k))) =
    S (length (dma_calls k)).
Proof.
  intros _.
  rewrite ioctl_give_page, ioctl_take_page, ioctl_get_page. simpl.
  repeat split.
  destruct (gup_res e =? 0); unfold EINVAL, EIO; discriminate.
Qed.

Lemma ioctl_on_closed_device_not_rejected_witness :
  fst (axi_fpga_ioctl gup_nothing AXI_FPGA_GIVE_PAGE sample_buffer_addr
         closed_kernel) = (0, sample_buffer_addr) /\
  fst (fst (axi_fpga_ioctl gup_nothing AXI_FPGA_TAKE_PAGE sample_buffer_addr
              closed_kernel)) = 0 /\
  fst (fst (axi_fpga_ioctl gup_nothing AXI_FPGA_GET_PAGE sample_buffer_addr
              closed_kernel)) <> - EIO /\
  dma_calls (snd (axi_fpga_ioctl gup_nothing AXI_FPGA_GIVE_PAGE
                    sample_buffer_addr closed_kernel)) =
    [dma_sync_single_for_device_op 0 4096 DMA_TO_DEVICE] /\
  dma_calls (snd (axi_fpga_ioctl gup_nothing AXI_FPGA_TAKE_PAGE
                    sample_buffer_addr closed_kernel)) =
    [dma_sync_single_for_cpu_op 0 4096 DMA_TO_DEVICE] /\
  length (dma_calls (snd (axi_fpga_ioctl gup_nothing AXI_FPGA_GET_PAGE
                            sample_buffer_addr closed_kernel))) = 1%nat.
Proof.
  apply (ioctl_on_closed_device_not_rejected
           gup_nothing sample_buffer_addr closed_kernel).
  reflexivity.
Defined.

(** C9.  A get-page call whose [get_user_pages] pins nothing returns
    [-EINVAL] only after it has called [dma_map_page] on the
    uninitialised [page] and written the resulting address into the
    caller's descriptor; and when [get_user_pages] fails with a
    negative errno the call does the same and returns 0. *)
Theorem get_page_failure_has_side_effects
  (b : buffer_addr) (k : kernel) (pg garbage handle : Z) :
  axi_fpga_ioctl
    {| gup_res := 0; gup_page := pg; page_uninit := garbage;
       dma_handle := handle |} AXI_FPGA_GET_PAGE b k =
    ((- EINVAL, set_phys_addr handle b),
     log_dma (dma_map_page_op garbage 0 (size b) (dma_dir_of (direction b)))
       k) /\
  axi_fpga_ioctl
    {| gup_res := -14; gup_page := pg; page_uninit := garbage;
       dma_handle := handle |} AXI_FPGA_GET_PAGE b k =
    ((0, set_phys_addr handle b),
     log_dma (dma_map_page_op garbage 0 (size b) (dma_dir_of (direction b)))
       k).
Proof.
  split; rewrite ioctl_get_page; reflexivity.
Qed.

(** *** Poll *)

Lemma poll_when_open (k : kernel) :
  dev_open (drv k) <> 0 ->
  axi_fpga_poll k =
    (if irq_happened (drv k) =? 1 then Z.lor POLLIN POLLRDNORM else 0, k).
Proof.
  intros Hopen. apply truthy_true in Hopen.
  unfold axi_fpga_poll, bind, get_drv. rewrite Hopen.
  destruct (irq_happened (drv k) =? 1); reflexivity.
Qed.

Lemma polls_when_open (n : nat) (k : kernel) :
  dev_open (drv k) <> 0 ->
  polls n k = (repeat (fst (axi_fpga_poll k)) n, k).
Proof.
  intros Hopen. induction n as [| n IH].
  - reflexivity.
  - cbn [polls repeat]. rewrite (poll_when_open k Hopen) in *.
    rewrite IH. reflexivity.
Qed.

(** C6.  On an open device poll returns [POLLIN | POLLRDNORM] when
    [irq_happened] is 1 and the empty mask otherwise, and leaves the
    whole state, [irq_happened] included, as it was; so any number of
    polls in a row return the same mask and change nothing. *)
Theorem poll_reports_event_without_clearing (k : kernel) (n : nat) :
  dev_open (drv k) <> 0 ->
  snd (axi_fpga_poll k) = k /\
  (irq_happened (drv k) = 1 ->
   fst (axi_fpga_poll k) = Z.lor POLLIN POLLRDNORM) /\
  (irq_happened (drv k) <> 1 -> fst (axi_fpga_poll k) = 0) /\
  polls n k = (repeat (fst (axi_fpga_poll k)) n, k).
Proof.
  intros Hopen. rewrite (polls_when_open n k Hopen).
  rewrite (poll_when_open k Hopen). cbn [fst snd].
  repeat split.
  - intros H1. apply Z.eqb_eq in H1. rewrite H1. reflexivity.
  - intros H0. apply Z.eqb_neq in H0. rewrite H0. reflexivity.
Qed.

Lemma poll_reports_event_without_clearing_witness :
  snd (axi_fpga_poll latched_kernel) = latched_kernel /\
  (irq_happened (drv latched_kernel) = 1 ->
   fst (axi_fpga_poll latched_kernel) = Z.lor POLLIN POLLRDNORM) /\
  (irq_happened (drv latched_kernel) <> 1 ->
   fst (axi_fpga_poll latched_kernel) = 0) /\
  polls 4 latched_kernel =
    (repeat (fst (axi_fpga_poll latched_kernel)) 4, latched_kernel).
Proof.
  apply (poll_reports_event_without_clearing latched_kernel 4).
  vm_compute. discriminate.
Defined.

Example poll_latched : fst (axi_fpga_poll latched_kernel) = 65.
Proof. reflexivity. Qed.

Example poll_idle : fst (axi_fpga_poll open_kernel) = 0.
Proof. reflexivity. Qed.

(** *** Mmap *)


(** The test as the driver makes it.  On an open device a mapping
    request whose page offset is nonzero, or whose length differs from
    the expected size as the driver computes it (the sum of the
    register window size and the buffer length modulo 2^32), returns
    [-EINVAL]; the vma, the page table and the rest of the state are
    left untouched. *)
Theorem mmap_wrong_geometry_rejected
  (res1 res2 : Z) (vma : vm_area_struct) (k : kernel) :
  dev_open (drv k) <> 0 ->
  vm_pgoff vma <> 0 \/
  u32 (vm_end vma - vm_start vma)
    <> u32 (dev_size (drv k) + buffer_length (drv k)) ->
  axi_fpga_mmap res1 res2 vma k = ((- EINVAL, vma), k).
Proof.
  intros Hopen Hbad. apply truthy_true in Hopen.
  unfold axi_fpga_mmap, bind, get_drv. rewrite Hopen. cbn [negb].
  destruct (truthy (vm_pgoff vma)) eqn:Hoff; [reflexivity |].
  apply truthy_false in Hoff.
  destruct Hbad as [Hpg | Hsz]; [contradiction |].
  unfold expected_size. apply Z.eqb_neq in Hsz. rewrite Hsz. reflexivity.
Qed.

Lemma mmap_wrong_geometry_rejected_witness :
  axi_fpga_mmap 0 0 short_vma open_kernel = ((- EINVAL, short_vma), open_kernel).
Proof.
  apply (mmap_wrong_geometry_rejected 0 0 short_vma open_kernel).
  - vm_compute. discriminate.
  - right. vm_compute. discriminate.
Defined.

(** A request that passes the checks and whose two [remap_pfn_range]
    calls succeed installs the register window at [vm_start] and the
    buffer at the virtual address [dev_size]. *)
Lemma mmap_success_page_table (vma : vm_area_struct) (k : kernel) :
  dev_open (drv k) <> 0 ->
  vm_pgoff vma = 0 ->
  u32 (vm_end vma - vm_start vma) = expected_size (drv k) ->
  axi_fpga_mmap 0 0 vma k =
    ((0, set_vm_ops
           (set_vm_page_prot (pgprot_noncached (vm_page_prot vma)) vma)),
     {| drv := drv k; irq_action := irq_action k; dma_calls := dma_calls k;
        page_table :=
          {| pr_addr := dev_size (drv k);
             pr_pfn := fpga_buffer_pages (drv k);
             pr_len := buffer_length (drv k);
             pr_prot := pgprot_noncached (vm_page_prot vma) |}
          :: {| pr_addr := vm_start vma;
                pr_pfn := Z.shiftr (dev_physaddr (drv k)) PAGE_SHIFT;
                pr_len := dev_size (drv k);
                pr_prot := pgprot_noncached (vm_page_prot vma) |}
          :: page_table k |}).
Proof.
  intros Hopen Hoff Hsz. apply truthy_true in Hopen.
  apply truthy_false in Hoff. apply Z.eqb_eq in Hsz.
  unfold axi_fpga_mmap, bind, get_drv.
  rewrite Hopen, Hoff, Hsz. reflexivity.
Qed.

(** C4.  The sample device, open, maps the sample vma of the expected
    size: the call returns 0.  The register window is at offset 0 of
    the region, uncached.  The buffer is not at offset [dev_size] of
    the region: nothing is mapped there.  The second
    [remap_pfn_range] was given the address [dev_size] itself, so the
    buffer sits at virtual addresses 4096 to 20479, outside the vma. *)
Theorem mmap_buffer_installed_at_dev_size :
  let r := axi_fpga_mmap 0 0 sample_vma open_kernel in
  let pt := page_table (snd r) in
  let base := vm_start sample_vma in
  let uncached := pgprot_noncached (vm_page_prot sample_vma) in
  fst (fst r) = 0 /\
  translate pt base = Some (dev_physaddr sample_drvdata, uncached) /\
  translate pt (base + dev_size sample_drvdata - 1) =
    Some (dev_physaddr sample_drvdata + dev_size sample_drvdata - 1,
          uncached) /\
  translate pt (base + dev_size sample_drvdata) = None /\
  translate pt (base + dev_size sample_drvdata + 4 * PAGE_SIZE - 1) = None /\
  translate pt (dev_size sample_drvdata) =
    Some (slave_phys_addr sample_drvdata, uncached) /\
  translate pt (dev_size sample_drvdata + 4 * PAGE_SIZE - 1) =
    Some (slave_phys_addr sample_drvdata + 4 * PAGE_SIZE - 1, uncached) /\
  dev_size sample_drvdata + 4 * PAGE_SIZE <= base.
Proof.
  vm_compute. repeat split; discriminate.
Qed.

(** *** The event: interrupt handler and read *)

Module InterleavingFacts.
Import Interleaving.

Lemma exec_step (l : label) (s s' : sys) :
  exec l s = Some s' <-> step s l s'.
Proof.
  split.
  - destruct l as [| | sig |]; unfold exec.
    + destruct (irq_action (kern s)) eqn:Hirq; [| discriminate].
      intros E. injection E as <-. constructor. assumption.
    + destruct (consumer s) eqn:Hpc; try discriminate.
      destruct (truthy (dev_open (drv (kern s)))) eqn:Hopen; cbn [negb];
        intros E; injection E as <-.
      * apply step_call_open; [assumption | apply truthy_true; assumption].
      * apply step_call_closed; [assumption | apply truthy_false; assumption].
    + destruct (consumer s) eqn:Hpc; try discriminate.
      destruct (wait_event_interruptible _ sig) as [r |] eqn:Hw;
        [| discriminate].
      intros E. injection E as <-. apply step_resume; assumption.
    + destruct (consumer s) eqn:Hpc; try discriminate.
      intros E. injection E as <-. eapply step_finish. eassumption.
  - intros Hstep. destruct Hstep as
      [s Hirq | s Hpc Hclosed | s Hpc Hopen | s sig r Hpc Hw | s r Hpc];
      unfold exec.
    + rewrite Hirq. reflexivity.
    + rewrite Hpc. apply truthy_false in Hclosed. rewrite Hclosed.
      reflexivity.
    + rewrite Hpc. apply truthy_true in Hopen. rewrite Hopen. reflexivity.
    + rewrite Hpc, Hw. reflexivity.
    + rewrite Hpc. reflexivity.
Qed.

Lemma run_steps (ls : list label) (s s' : sys) :
  run ls s = Some s' <-> steps s ls s'.
Proof.
  revert s. induction ls as [| l ls IH]; intros s.
  - simpl. split.
    + intros E. injection E as <-. constructor.
    + intros H. inversion H. reflexivity.
  - simpl. split.
    + destruct (exec l s) as [s1 |] eqn:He; [| discriminate].
      intros Hr. econstructor.
      * apply exec_step. eassumption.
      * apply IH. assumption.
    + intros H. inversion H as [| ? ? s1 ? ? Hs Hss]; subst.
      apply exec_step in Hs. rewrite Hs. apply IH. assumption.
Qed.

(** The machine is deterministic per label. *)
Lemma steps_deterministic (ls : list label) (s s1 s2 : sys) :
  steps s ls s1 -> steps s ls s2 -> s1 = s2.
Proof.
  intros H1 H2. apply run_steps in H1, H2. congruence.
Qed.

Lemma run_app (ls1 ls2 : list label) (s : sys) :
  run (ls1 ++ ls2) s =
    match run ls1 s with
    | Some s' => run ls2 s'
    | None => None
    end.
Proof.
  revert s. induction ls1 as [| l ls1 IH]; intros s; simpl.
  - reflexivity.
  - destruct (exec l s); [apply IH | reflexivity].
Qed.

(** Any positive number of interrupts leaves the state one interrupt
    leaves. *)
Lemma run_irqs (n : nat) (s : sys) :
  irq_action (kern s) = true ->
  run (repeat Irq (S n)) s = Some (with_kern (latched (kern s)) s).
Proof.
  revert s. induction n as [| n IH]; intros s Hirq.
  - cbn [run repeat]. unfold exec. rewrite Hirq. reflexivity.
  - change (repeat Irq (S (S n))) with (Irq :: repeat Irq (S n)).
    cbn [run]. unfold exec at 1. rewrite Hirq.
    rewrite IH by exact Hirq. reflexivity.
Qed.

End InterleavingFacts.

Import Interleaving InterleavingFacts.

Lemma steps_app (s s' s'' : sys) (ls1 ls2 : list label) :
  steps s ls1 s' -> steps s' ls2 s'' -> steps s (ls1 ++ ls2) s''.
Proof.
  intros H1 H2. induction H1 as [s | s l s1 ls s2 Hs _ IH].
  - exact H2.
  - simpl. econstructor; [exact Hs | apply IH; exact H2].
Qed.

(** A read that finds the event latched returns 0 at once and clears
    it. *)
Lemma read_latched (sig : bool) (k : kernel) :
  dev_open (drv k) <> 0 ->
  irq_happened (drv k) = 1 ->
  axi_fpga_read sig k = Some (0, cleared k).
Proof.
  intros Hopen Hflag. apply truthy_true in Hopen.
  unfold axi_fpga_read. rewrite Hopen, Hflag. reflexivity.
Qed.

(** A read with no event and no signal sleeps. *)
Lemma read_blocks (k : kernel) :
  dev_open (drv k) <> 0 ->
  irq_happened (drv k) <> 1 ->
  axi_fpga_read false k = None.
Proof.
  intros Hopen Hflag. apply truthy_true in Hopen. apply Z.eqb_neq in Hflag.
  unfold axi_fpga_read. rewrite Hopen, Hflag. reflexivity.
Qed.

(** [axi_fpga_read] is the three consumer steps run without an
    interrupt in between. *)
Lemma read_as_steps (sig : bool) (s : sys) (r : Z) (k' : kernel) :
  consumer s = Idle ->
  dev_open (drv (kern s)) <> 0 ->
  axi_fpga_read sig (kern s) = Some (r, k') ->
  steps s [CallRead; Resume sig; Finish]
    {| kern := k'; consumer := Idle; returned := r :: returned s |}.
Proof.
  intros Hpc Hopen Hread. apply run_steps.
  pose proof Hopen as Ht. apply truthy_true in Ht.
  unfold axi_fpga_read in Hread. rewrite Ht in Hread. cbn [negb] in Hread.
  cbn [run]. unfold exec at 1. rewrite Hpc, Ht. cbn [negb].
  unfold exec at 1. cbn [consumer kern].
  destruct (wait_event_interruptible _ sig) as [w |]; [| discriminate].
  injection Hread as <- <-. reflexivity.
Qed.

(** C7.  From an open session with the consumer outside read, after
    any positive number of interrupts (so after two or more, and after
    one) a read goes through without sleeping and returns 0: the
    labelled run exists and is the only one.  It is the one return the
    interrupts produce: the event is cleared, and the next read enters
    the wait and stays there, its only enabled steps being a new
    interrupt or a signal. *)
Theorem triggers_coalesce_into_one_wakeup (s : sys) (n : nat) :
  session_open (kern s) ->
  consumer s = Idle ->
  (1 <= n)%nat ->
  exists s1,
    steps s (repeat Irq n ++ [CallRead; Resume false; Finish]) s1 /\
    (forall s1',
       steps s (repeat Irq n ++ [CallRead; Resume false; Finish]) s1' ->
       s1' = s1) /\
    returned s1 = 0 :: returned s /\
    consumer s1 = Idle /\
    irq_happened (drv (kern s1)) = 0 /\
    exists s2,
      step s1 CallRead s2 /\
      consumer s2 = InWait /\
      returned s2 = returned s1 /\
      forall l s3, step s2 l s3 -> l = Irq \/ l = Resume true.
Proof.
  intros [Hopen Hirq] Hpc Hn.
  destruct n as [| n]; [inversion Hn |].
  set (k1 := latched (kern s)).
  assert (Hread : axi_fpga_read false k1 = Some (0, cleared k1)).
  { apply read_latched; [exact Hopen | reflexivity]. }
  set (s1 := {| kern := cleared k1; consumer := Idle;
                returned := 0 :: returned s |}).
  assert (Hrun : steps s (repeat Irq (S n)
                          ++ [CallRead; Resume false; Finish]) s1).
  { eapply steps_app.
    - apply run_steps. apply run_irqs. exact Hirq.
    - apply (read_as_steps false (with_kern k1 s) 0 (cleared k1));
        [exact Hpc | exact Hopen | exact Hread]. }
  exists s1. split; [exact Hrun |].
  split; [intros s1' H'; exact (steps_deterministic _ _ _ _ H' Hrun) |].
  split; [reflexivity |]. split; [reflexivity |]. split; [reflexivity |].
  exists {| kern := kern s1; consumer := InWait; returned := returned s1 |}.
  split; [apply step_call_open; [reflexivity | exact Hopen] |].
  split; [reflexivity |]. split; [reflexivity |].
  intros l s3 Hstep. inversion Hstep as
    [s0 Hi | s0 Hc _ | s0 Hc _ | s0 sig r Hc Hw | s0 r Hc]; subst;
    cbn [consumer] in *; try discriminate.
  - left. reflexivity.
  - right. destruct sig; [reflexivity |].
    cbn in Hw. discriminate.
Qed.

Lemma triggers_coalesce_into_one_wakeup_witness :
  exists s1,
    steps {| kern := open_kernel; consumer := Idle; returned := [] |}
      (repeat Irq 2 ++ [CallRead; Resume false; Finish]) s1 /\
    (forall s1',
       steps {| kern := open_kernel; consumer := Idle; returned := [] |}
         (repeat Irq 2 ++ [CallRead; Resume false; Finish]) s1' ->
       s1' = s1) /\
    returned s1 = [0] /\
    consumer s1 = Idle /\
    irq_happened (drv (kern s1)) = 0 /\
    exists s2,
      step s1 CallRead s2 /\
      consumer s2 = InWait /\
      returned s2 = returned s1 /\
      forall l s3, step s2 l s3 -> l = Irq \/ l = Resume true.
Proof.
  apply (triggers_coalesce_into_one_wakeup
           {| kern := open_kernel; consumer := Idle; returned := [] |} 2).
  - split; [vm_compute; discriminate | reflexivity].
  - reflexivity.
  - lia.
Defined.

(** C3.  A read that sleeps on an open session with no event latched
    and is woken by a signal: [wait_event_interruptible] answers
    [-ERESTARTSYS], the read drops that value, stores 0 in
    [irq_happened] and returns 0, the value it returns after an
    interrupt.  An interrupt that arrives after the wait has returned
    and before the store is latched and then cleared by the cancelled
    read. *)
Theorem read_woken_by_signal_returns_success (s : sys) :
  session_open (kern s) ->
  consumer s = Idle ->
  irq_happened (drv (kern s)) <> 1 ->
  wait_event_interruptible (irq_happened (drv (kern s)) =? 1) true
    = Some (- ERESTARTSYS) /\
  axi_fpga_read true (kern s) = Some (0, cleared (kern s)) /\
  option_map fst (axi_fpga_read true (kern s)) =
    option_map fst (axi_fpga_read false (latched (kern s))) /\
  exists s_woken s_irq s_end,
    steps s [CallRead; Resume true] s_woken /\
    consumer s_woken = AfterWait (- ERESTARTSYS) /\
    step s_woken Irq s_irq /\
    irq_happened (drv (kern s_irq)) = 1 /\
    step s_irq Finish s_end /\
    irq_happened (drv (kern s_end)) = 0 /\
    returned s_end = 0 :: returned s.
Proof.
  intros [Hopen Hirq] Hpc Hflag.
  pose proof Hopen as Ht. apply truthy_true in Ht.
  pose proof Hflag as Hf. apply Z.eqb_neq in Hf.
  assert (Hw : wait_event_interruptible
                 (irq_happened (drv (kern s)) =? 1) true
               = Some (- ERESTARTSYS))
    by (rewrite Hf; reflexivity).
  assert (Hread : axi_fpga_read true (kern s) = Some (0, cleared (kern s))).
  { unfold axi_fpga_read. rewrite Ht, Hw. reflexivity. }
  split; [exact Hw |]. split; [exact Hread |]. split.
  - rewrite Hread. rewrite (read_latched false (latched (kern s)));
      [reflexivity | exact Hopen | reflexivity].
  - set (s_woken := {| kern := kern s; consumer := AfterWait (- ERESTARTSYS);
                       returned := returned s |}).
    exists s_woken, (with_kern (latched (kern s)) s_woken).
    eexists. split.
    { apply (steps_cons s CallRead
               {| kern := kern s; consumer := InWait;
                  returned := returned s |});
        [apply step_call_open; assumption |].
      apply (steps_cons _ (Resume true) s_woken); [| constructor].
      apply (step_resume
               {| kern := kern s; consumer := InWait;
                  returned := returned s |} true (- ERESTARTSYS));
        [reflexivity | exact Hw]. }
    split; [reflexivity |]. split.
    { apply (step_irq s_woken). exact Hirq. }
    split; [reflexivity |]. split.
    { eapply step_finish. reflexivity. }
    split; reflexivity.
Qed.

Lemma read_woken_by_signal_returns_success_witness :
  wait_event_interruptible (irq_happened (drv open_kernel) =? 1) true
    = Some (- ERESTARTSYS) /\
  axi_fpga_read true open_kernel = Some (0, cleared open_kernel) /\
  option_map fst (axi_fpga_read true open_kernel) =
    option_map fst (axi_fpga_read false (latched open_kernel)) /\
  exists s_woken s_irq s_end,
    steps {| kern := open_kernel; consumer := Idle; returned := [] |}
      [CallRead; Resume true] s_woken /\
    consumer s_woken = AfterWait (- ERESTARTSYS) /\
    step s_woken Irq s_irq /\
    irq_happened (drv (kern s_irq)) = 1 /\
    step s_irq Finish s_end /\
    irq_happened (drv (kern s_end)) = 0 /\
    returned s_end = [0].
Proof.
  apply (read_woken_by_signal_returns_success
           {| kern := open_kernel; consumer := Idle; returned := [] |}).
  - split; [vm_compute; discriminate | reflexivity].
  - reflexivity.
  - vm_compute. discriminate.
Defined.

(** *** The end-to-end scenario

    Open, map, get a page, interrupt, read once, release; a read after
    the release is refused. *)
Example end_to_end :
  let (r_open, k1) := axi_fpga_open 0 closed_kernel in
  let (r_map, k2) := axi_fpga_mmap 0 0 sample_vma k1 in
  let (r_get, k3) :=
    axi_fpga_ioctl {| gup_res := 1; gup_page := 77; page_uninit := 0;
                      dma_handle := 315392 |}
      AXI_FPGA_GET_PAGE sample_buffer_addr k2 in
  let (_, k4) := axi_fpga_irq_handler k3 in
  match axi_fpga_read false k4 with
  | Some (r_read, k5) =>
      let (r_close, k6) := axi_fpga_release k5 in
      r_open = 0 /\ fst r_map = 0 /\ fst r_get = 0 /\
      phys_addr (snd r_get) = 315392 /\ r_read = 0 /\
      axi_fpga_read false k5 = None /\ r_close = 0 /\
      axi_fpga_read false k6 = Some (- EIO, k6)
  | None => False
  end.
Proof. vm_compute. repeat split. Qed.

(** ** Further properties of the driver *)

(** *** Control calls *)

(** X1.  A command other than the three the driver defines returns
    [-ENOTTY]; the descriptor and the whole state are left as they
    were, and no DMA call is made. *)
Theorem ioctl_unknown_command_refused
  (e : ioctl_env) (cmd : Z) (b : buffer_addr) (k : kernel) :
  cmd <> AXI_FPGA_GET_PAGE ->
  cmd <> AXI_FPGA_GIVE_PAGE ->
  cmd <> AXI_FPGA_TAKE_PAGE ->
  axi_fpga_ioctl e cmd b k = ((- ENOTTY, b), k).
Proof.
  intros H1 H2 H3. apply ioctl_unknown_command; assumption.
Qed.

Lemma ioctl_unknown_command_refused_witness :
  axi_fpga_ioctl gup_nothing 0 sample_buffer_addr open_kernel =
    ((- ENOTTY, sample_buffer_addr), open_kernel).
Proof.
  apply (ioctl_unknown_command_refused gup_nothing 0 sample_buffer_addr
           open_kernel); vm_compute; discriminate.
Defined.

Lemma ioctl_cases (cmd : Z) :
  cmd = AXI_FPGA_GET_PAGE \/ cmd = AXI_FPGA_GIVE_PAGE \/
  cmd = AXI_FPGA_TAKE_PAGE \/
  (cmd <> AXI_FPGA_GET_PAGE /\ cmd <> AXI_FPGA_GIVE_PAGE /\
   cmd <> AXI_FPGA_TAKE_PAGE).
Proof.
  destruct (Z.eq_dec cmd AXI_FPGA_GET_PAGE); [tauto |].
  destruct (Z.eq_dec cmd AXI_FPGA_GIVE_PAGE); [tauto |].
  destruct (Z.eq_dec cmd AXI_FPGA_TAKE_PAGE); tauto.
Qed.

(** X2.  Whatever the command, the descriptor and the kernel's
    answers, a control call leaves the device instance, the interrupt
    line and the page table as they were; it makes at most one DMA
    call, on top of the earlier ones; it returns 0, [-EINVAL] or
    [-ENOTTY]; and of the descriptor it can change only [phys_addr]. *)
Theorem ioctl_frame
  (e : ioctl_env) (cmd : Z) (b : buffer_addr) (k : kernel) :
  let r := axi_fpga_ioctl e cmd b k in
  drv (snd r) = drv k /\
  irq_action (snd r) = irq_action k /\
  page_table (snd r) = page_table k /\
  (dma_calls (snd r) = dma_calls k \/
   exists op, dma_calls (snd r) = op :: dma_calls k) /\
  (fst (fst r) = 0 \/ fst (fst r) = - EINVAL \/ fst (fst r) = - ENOTTY) /\
  virt_addr (snd (fst r)) = virt_addr b /\
  size (snd (fst r)) = size b /\
  direction (snd (fst r)) = direction b.
Proof.
  cbv zeta.
  destruct (ioctl_cases cmd) as [-> | [-> | [-> | (H1 & H2 & H3)]]].
  - rewrite ioctl_get_page. cbn [fst snd log_dma drv irq_action page_table
      dma_calls set_phys_addr virt_addr size direction].
    repeat split; eauto.
    destruct (gup_res e =? 0); auto.
  - rewrite ioctl_give_page. cbn [fst snd log_dma drv irq_action page_table
      dma_calls]. repeat split; eauto.
  - rewrite ioctl_take_page. cbn [fst snd log_dma drv irq_action page_table
      dma_calls]. repeat split; eauto.
  - rewrite ioctl_unknown_command by assumption. cbn [fst snd].
    repeat split; auto.
Qed.

(** X3.  A get-page call for which [get_user_pages] pins a page
    returns 0, maps exactly that page from offset 0 for the size of
    the descriptor, in the direction the descriptor asks for, and
    hands the bus address back in [phys_addr]; the other fields of the
    descriptor are unchanged. *)
Theorem get_page_success
  (e : ioctl_env) (b : buffer_addr) (k : kernel) :
  1 <= gup_res e ->
  axi_fpga_ioctl e AXI_FPGA_GET_PAGE b k =
    ((0, {| virt_addr := virt_addr b; phys_addr := dma_handle e;
            size := size b; direction := direction b |}),
     log_dma (dma_map_page_op (gup_page e) 0 (size b)
                (if direction b =? 0 then DMA_FROM_DEVICE else DMA_TO_DEVICE))
       k).
Proof.
  intros Hres. rewrite ioctl_get_page.
  assert (H0 : (gup_res e =? 0) = false) by (apply Z.eqb_neq; lia).
  assert (H1 : (1 <=? gup_res e) = true) by (apply Z.leb_le; lia).
  rewrite H0, H1. unfold dma_dir_of, truthy, set_phys_addr.
  destruct (direction b =? 0); reflexivity.
Qed.

Lemma get_page_success_witness :
  axi_fpga_ioctl
    {| gup_res := 1; gup_page := 77; page_uninit := 0; dma_handle := 315392 |}
    AXI_FPGA_GET_PAGE sample_buffer_addr open_kernel =
    ((0, {| virt_addr := 3053457408; phys_addr := 315392;
            size := 4096; direction := 1 |}),
     log_dma (dma_map_page_op 77 0 4096 DMA_TO_DEVICE) open_kernel).
Proof.
  apply (get_page_success
           {| gup_res := 1; gup_page := 77; page_uninit := 0;
              dma_handle := 315392 |} sample_buffer_addr open_kernel).
  simpl. lia.
Defined.

(** *** Mmap *)

(** X4.  A mapping request that passes the checks and whose two
    [remap_pfn_range] calls succeed returns 0, installs the driver's
    operations table and makes the vma uncached.  Every byte [o] of the
    buffer is then reachable, uncached, at the virtual address
    [dev_size + o], backed by the buffer's page frames in order; and
    every byte [o] of the register window is reachable, uncached, at
    [vm_start + o], backed by the page frame of [dev_physaddr] onwards,
    wherever that address is not among those the buffer took. *)
Theorem mmap_success_layout (vma : vm_area_struct) (k : kernel) (o : Z) :
  dev_open (drv k) <> 0 ->
  vm_pgoff vma = 0 ->
  u32 (vm_end vma - vm_start vma) = expected_size (drv k) ->
  let r := axi_fpga_mmap 0 0 vma k in
  let pt := page_table (snd r) in
  let uncached := pgprot_noncached (vm_page_prot vma) in
  fst (fst r) = 0 /\
  vm_ops (snd (fst r)) = true /\
  vm_page_prot (snd (fst r)) = uncached /\
  pte_uncached uncached = true /\
  (0 <= o < buffer_length (drv k) ->
   translate pt (dev_size (drv k) + o) =
     Some (Z.shiftl (fpga_buffer_pages (drv k)) PAGE_SHIFT + o, uncached)) /\
  (0 <= o < dev_size (drv k) ->
   vm_start vma + o < dev_size (drv k) \/
   dev_size (drv k) + buffer_length (drv k) <= vm_start vma + o ->
   translate pt (vm_start vma + o) =
     Some (Z.shiftl (Z.shiftr (dev_physaddr (drv k)) PAGE_SHIFT) PAGE_SHIFT
           + o, uncached)).
Proof.
  intros Hopen Hoff Hsz. cbv zeta.
  rewrite (mmap_success_page_table vma k Hopen Hoff Hsz).
  cbn [fst snd page_table vm_ops vm_page_prot set_vm_ops set_vm_page_prot
       pgprot_noncached pte_uncached].
  repeat split.
  - intros Ho. cbn [translate pr_addr pr_len pr_pfn pr_prot].
    replace (dev_size (drv k) <=? dev_size (drv k) + o) with true
      by (symmetry; apply Z.leb_le; lia).
    replace (dev_size (drv k) + o <? dev_size (drv k) + buffer_length (drv k))
      with true by (symmetry; apply Z.ltb_lt; lia).
    cbn [andb]. f_equal. f_equal. lia.
  - intros Ho Hclear. cbn [translate pr_addr pr_len pr_pfn pr_prot].
    replace ((dev_size (drv k) <=? vm_start vma + o)
             && (vm_start vma + o
                 <? dev_size (drv k) + buffer_length (drv k)))
      with false.
    + replace (vm_start vma <=? vm_start vma + o) with true
        by (symmetry; apply Z.leb_le; lia).
      replace (vm_start vma + o <? vm_start vma + dev_size (drv k))
        with true by (symmetry; apply Z.ltb_lt; lia).
      cbn [andb]. f_equal. f_equal. lia.
    + symmetry. apply andb_false_iff.
      destruct Hclear as [Hlow | Hhigh].
      * left. apply Z.leb_gt. lia.
      * right. apply Z.ltb_ge. lia.
Qed.

Lemma mmap_success_layout_witness :
  let r := axi_fpga_mmap 0 0 sample_vma open_kernel in
  let pt := page_table (snd r) in
  let uncached := pgprot_noncached (vm_page_prot sample_vma) in
  fst (fst r) = 0 /\
  vm_ops (snd (fst r)) = true /\
  vm_page_prot (snd (fst r)) = uncached /\
  pte_uncached uncached = true /\
  (0 <= 100 < buffer_length (drv open_kernel) ->
   translate pt (dev_size (drv open_kernel) + 100) =
     Some (Z.shiftl (fpga_buffer_pages (drv open_kernel)) PAGE_SHIFT + 100,
           uncached)) /\
  (0 <= 100 < dev_size (drv open_kernel) ->
   vm_start sample_vma + 100 < dev_size (drv open_kernel) \/
   dev_size (drv open_kernel) + buffer_length (drv open_kernel)
     <= vm_start sample_vma + 100 ->
   translate pt (vm_start sample_vma + 100) =
     Some (Z.shiftl (Z.shiftr (dev_physaddr (drv open_kernel)) PAGE_SHIFT)
             PAGE_SHIFT + 100, uncached)).
Proof.
  apply (mmap_success_layout sample_vma open_kernel 100).
  - vm_compute. discriminate.
  - reflexivity.
  - reflexivity.
Defined.

(** X5.  When a request has passed the checks and
    [remap_pfn_range] fails, mmap returns [-EIO] without installing
    its operations table.  If the first call fails the page table is
    untouched; if the second fails the register window stays
    installed at [vm_start]. *)
Theorem mmap_remap_failure
  (res1 res2 : Z) (vma : vm_area_struct) (k : kernel) :
  dev_open (drv k) <> 0 ->
  vm_pgoff vma = 0 ->
  u32 (vm_end vma - vm_start vma) = expected_size (drv k) ->
  (res1 <> 0 ->
   axi_fpga_mmap res1 res2 vma k =
     ((- EIO, set_vm_page_prot (pgprot_noncached (vm_page_prot vma)) vma),
      k)) /\
  (res2 <> 0 ->
   fst (axi_fpga_mmap 0 res2 vma k) =
     (- EIO, set_vm_page_prot (pgprot_noncached (vm_page_prot vma)) vma) /\
   page_table (snd (axi_fpga_mmap 0 res2 vma k)) =
     {| pr_addr := vm_start vma;
        pr_pfn := Z.shiftr (dev_physaddr (drv k)) PAGE_SHIFT;
        pr_len := dev_size (drv k);
        pr_prot := pgprot_noncached (vm_page_prot vma) |}
     :: page_table k).
Proof.
  intros Hopen Hoff Hsz. apply truthy_true in Hopen.
  apply truthy_false in Hoff. apply Z.eqb_eq in Hsz.
  split; intros Hres; pose proof Hres as Ht; apply truthy_true in Ht;
    apply Z.eqb_neq in Hres;
    unfold axi_fpga_mmap, bind, get_drv, remap_pfn_range;
    rewrite Hopen, Hoff, Hsz; cbn [negb fst snd drv vm_start vm_page_prot
                                   set_vm_page_prot];
    rewrite ?Hres, ?Ht; cbn; rewrite ?Hres, ?Ht; auto.
Qed.

Lemma mmap_remap_failure_witness :
  (-12 <> 0 ->
   axi_fpga_mmap (-12) (-12) sample_vma open_kernel =
     ((- EIO,
       set_vm_page_prot (pgprot_noncached (vm_page_prot sample_vma))
         sample_vma),
      open_kernel)) /\
  (-12 <> 0 ->
   fst (axi_fpga_mmap 0 (-12) sample_vma open_kernel) =
     (- EIO,
      set_vm_page_prot (pgprot_noncached (vm_page_prot sample_vma))
        sample_vma) /\
   page_table (snd (axi_fpga_mmap 0 (-12) sample_vma open_kernel)) =
     {| pr_addr := vm_start sample_vma;
        pr_pfn := Z.shiftr (dev_physaddr (drv open_kernel)) PAGE_SHIFT;
        pr_len := dev_size (drv open_kernel);
        pr_prot := pgprot_noncached (vm_page_prot sample_vma) |}
     :: page_table open_kernel).
Proof.
  apply (mmap_remap_failure (-12) (-12) sample_vma open_kernel).
  - vm_compute. discriminate.
  - reflexivity.
  - reflexivity.
Defined.

(** X6.  Whatever the request and whatever [remap_pfn_range] answers,
    mmap leaves the device instance, the interrupt line and the DMA
    log as they were, only adds ranges (at most two) in front of the
    page table, keeps the bounds and the offset of the vma, and
    returns 0, [-EIO] or [-EINVAL]. *)
Theorem mmap_frame (res1 res2 : Z) (vma : vm_area_struct) (k : kernel) :
  let r := axi_fpga_mmap res1 res2 vma k in
  drv (snd r) = drv k /\
  irq_action (snd r) = irq_action k /\
  dma_calls (snd r) = dma_calls k /\
  (exists added,
     page_table (snd r) = added ++ page_table k /\
     (length added <= 2)%nat) /\
  vm_start (snd (fst r)) = vm_start vma /\
  vm_end (snd (fst r)) = vm_end vma /\
  vm_pgoff (snd (fst r)) = vm_pgoff vma /\
  (fst (fst r) = 0 \/ fst (fst r) = - EIO \/ fst (fst r) = - EINVAL).
Proof.
  cbv zeta. unfold axi_fpga_mmap, bind, get_drv, remap_pfn_range, ret, truthy.
  destruct (dev_open (drv k) =? 0); cbn [negb fst snd].
  { repeat split; auto. exists []. split; [reflexivity | simpl; lia]. }
  destruct (vm_pgoff vma =? 0); cbn [negb fst snd].
  2: { repeat split; auto. exists []. split; [reflexivity | simpl; lia]. }
  destruct (u32 (vm_end vma - vm_start vma) =? expected_size (drv k));
    cbn [negb fst snd].
  2: { repeat split; auto. exists []. split; [reflexivity | simpl; lia]. }
  destruct (res1 =? 0); cbn [negb fst snd drv].
  2: { repeat split; auto. exists []. split; [reflexivity | simpl; lia]. }
  destruct (res2 =? 0); cbn [negb fst snd drv irq_action dma_calls
                             page_table set_vm_ops set_vm_page_prot
                             vm_start vm_end vm_pgoff];
    repeat split; auto.
  - eexists [_; _]. split; [reflexivity | simpl; lia].
  - eexists [_]. split; [reflexivity | simpl; lia].
Qed.

(** *** Session and event *)

(** X7.  Release of an open device returns 0 and removes the
    handler; from then on read and mmap return [-EIO], poll returns
    [-EIO] as an unsigned mask, a second release returns [-EIO], and
    none of them changes the state.  Release does not touch
    [irq_happened]. *)
Theorem release_closes_data_path
  (k : kernel) (sig : bool) (res1 res2 : Z) (vma : vm_area_struct) :
  dev_open (drv k) <> 0 ->
  let k' := snd (axi_fpga_release k) in
  fst (axi_fpga_release k) = 0 /\
  irq_action k' = false /\
  irq_happened (drv k') = irq_happened (drv k) /\
  axi_fpga_read sig k' = Some (- EIO, k') /\
  axi_fpga_poll k' = (u32 (- EIO), k') /\
  axi_fpga_mmap res1 res2 vma k' = ((- EIO, vma), k') /\
  axi_fpga_release k' = (- EIO, k').
Proof.
  intros Hopen. cbv zeta. rewrite (release_when_open k Hopen).
  cbn [fst snd].
  set (k' := {| drv := set_dev_open 0 (drv k); irq_action := false;
                dma_calls := dma_calls k; page_table := page_table k |}).
  assert (Hclosed : dev_open (drv k') = 0) by reflexivity.
  destruct (closed_read_poll_mmap_rejected k' sig res1 res2 vma Hclosed)
    as (Hr & Hp & Hm).
  repeat split; assumption.
Qed.

Lemma release_closes_data_path_witness :
  let k' := snd (axi_fpga_release latched_kernel) in
  fst (axi_fpga_release latched_kernel) = 0 /\
  irq_action k' = false /\
  irq_happened (drv k') = irq_happened (drv latched_kernel) /\
  axi_fpga_read false k' = Some (- EIO, k') /\
  axi_fpga_poll k' = (u32 (- EIO), k') /\
  axi_fpga_mmap 0 0 sample_vma k' = ((- EIO, sample_vma), k') /\
  axi_fpga_release k' = (- EIO, k').
Proof.
  apply (release_closes_data_path latched_kernel false 0 0 sample_vma).
  vm_compute. discriminate.
Defined.

(** X8.  Neither release nor open resets [irq_happened]: an event
    latched and not read before the device is released is still
    latched after the next successful open, where poll reports it and
    a read returns 0 at once, with no interrupt in the new session. *)
Theorem latched_event_survives_reopen (k : kernel) :
  dev_open (drv k) <> 0 ->
  irq_happened (drv k) = 1 ->
  let k1 := snd (axi_fpga_release k) in
  let k2 := snd (axi_fpga_open 0 k1) in
  fst (axi_fpga_release k) = 0 /\
  fst (axi_fpga_open 0 k1) = 0 /\
  irq_happened (drv k2) = 1 /\
  fst (axi_fpga_poll k2) = Z.lor POLLIN POLLRDNORM /\
  axi_fpga_read false k2 = Some (0, cleared k2).
Proof.
  intros Hopen Hflag. cbv zeta. rewrite (release_when_open k Hopen).
  cbn [fst snd]. rewrite open_when_closed_ok by reflexivity.
  cbn [fst snd].
  set (k2 := {| drv := _; irq_action := true; dma_calls := _;
                page_table := _ |}).
  assert (Hopen2 : dev_open (drv k2) <> 0) by (simpl; discriminate).
  assert (Hflag2 : irq_happened (drv k2) = 1) by exact Hflag.
  repeat split.
  - exact Hflag2.
  - rewrite (poll_when_open k2 Hopen2), Hflag2. reflexivity.
  - apply read_latched; assumption.
Qed.

Lemma latched_event_survives_reopen_witness :
  let k1 := snd (axi_fpga_release latched_kernel) in
  let k2 := snd (axi_fpga_open 0 k1) in
  fst (axi_fpga_release latched_kernel) = 0 /\
  fst (axi_fpga_open 0 k1) = 0 /\
  irq_happened (drv k2) = 1 /\
  fst (axi_fpga_poll k2) = Z.lor POLLIN POLLRDNORM /\
  axi_fpga_read false k2 = Some (0, cleared k2).
Proof.
  apply (latched_event_survives_reopen latched_kernel).
  - vm_compute. discriminate.
  - reflexivity.
Defined.

(** X9.  On an open device poll and read agree: poll reports input
    exactly when a read with no signal pending would return instead of
    sleeping.  Whenever a read returns, it returns 0 and has consumed
    the event: poll then reports nothing and the next read sleeps
    until a new interrupt or a signal. *)
Theorem poll_agrees_with_read (k : kernel) (sig : bool) :
  dev_open (drv k) <> 0 ->
  (fst (axi_fpga_poll k) <> 0 <-> axi_fpga_read false k <> None) /\
  forall r k',
    axi_fpga_read sig k = Some (r, k') ->
    r = 0 /\ fst (axi_fpga_poll k') = 0 /\ axi_fpga_read false k' = None.
Proof.
  intros Hopen. pose proof Hopen as Ht. apply truthy_true in Ht. split.
  - rewrite (poll_when_open k Hopen). unfold axi_fpga_read.
    rewrite Ht. cbn [negb fst]. unfold wait_event_interruptible.
    destruct (irq_happened (drv k) =? 1); split; intros H;
      try discriminate; try (exfalso; apply H; reflexivity).
  - intros r k' Hread. unfold axi_fpga_read in Hread.
    rewrite Ht in Hread. cbn [negb] in Hread.
    destruct (wait_event_interruptible _ sig); [| discriminate].
    injection Hread as <- <-. split; [reflexivity |].
    split.
    + rewrite poll_when_open by exact Hopen. reflexivity.
    + apply read_blocks; [exact Hopen | simpl; discriminate].
Qed.

Lemma poll_agrees_with_read_witness :
  (fst (axi_fpga_poll latched_kernel) <> 0 <->
   axi_fpga_read false latched_kernel <> None) /\
  forall r k',
    axi_fpga_read true latched_kernel = Some (r, k') ->
    r = 0 /\ fst (axi_fpga_poll k') = 0 /\ axi_fpga_read false k' = None.
Proof.
  apply (poll_agrees_with_read latched_kernel true).
  vm_compute. discriminate.
Defined.

(** *** Invariants over every sequence of entries *)

Lemma mmap_keeps_rest (res1 res2 : Z) (vma : vm_area_struct) (k : kernel) :
  drv (snd (axi_fpga_mmap res1 res2 vma k)) = drv k /\
  irq_action (snd (axi_fpga_mmap res1 res2 vma k)) = irq_action k.
Proof.
  unfold axi_fpga_mmap, bind, get_drv, remap_pfn_range, ret, truthy.
  destruct (dev_open (drv k) =? 0); cbn [negb fst snd]; [auto |].
  destruct (vm_pgoff vma =? 0); cbn [negb fst snd]; [| auto].
  destruct (u32 (vm_end vma - vm_start vma) =? expected_size (drv k));
    cbn [negb fst snd]; [| auto].
  destruct (res1 =? 0); cbn [negb fst snd drv]; [| auto].
  destruct (res2 =? 0); cbn [negb fst snd drv irq_action]; auto.
Qed.

Lemma ioctl_keeps_rest (e : ioctl_env) (cmd : Z) (b : buffer_addr)
  (k : kernel) :
  drv (snd (axi_fpga_ioctl e cmd b k)) = drv k /\
  irq_action (snd (axi_fpga_ioctl e cmd b k)) = irq_action k.
Proof.
  destruct (ioctl_cases cmd) as [-> | [-> | [-> | (H1 & H2 & H3)]]].
  - rewrite ioctl_get_page. auto.
  - rewrite ioctl_give_page. auto.
  - rewrite ioctl_take_page. auto.
  - rewrite ioctl_unknown_command by assumption. auto.
Qed.

(** What an entry does to the device instance and the interrupt
    line: nothing, or one of five updates. *)
Lemma enter_effect (c : entry) (k : kernel) :
  (drv (enter c k) = drv k /\ irq_action (enter c k) = irq_action k) \/
  (dev_open (drv k) = 0 /\
   drv (enter c k) = set_dev_open 1 (drv k) /\
   (irq_action (enter c k) = irq_action k \/ irq_action (enter c k) = true))
  \/
  (dev_open (drv k) <> 0 /\
   drv (enter c k) = set_dev_open 0 (drv k) /\
   irq_action (enter c k) = false) \/
  (drv (enter c k) = atomic_set_irq_happened 0 (drv k) /\
   irq_action (enter c k) = irq_action k) \/
  (drv (enter c k) = atomic_set_irq_happened 1 (drv k) /\
   irq_action (enter c k) = irq_action k).
Proof.
  destruct c as [irq_res | sig | | res1 res2 vma | e cmd b | |];
    cbn [enter].
  - destruct (Z.eq_dec (dev_open (drv k)) 0) as [Hc | Ho].
    + right. left. split; [exact Hc |].
      destruct (Z.eq_dec irq_res 0) as [-> | Hr].
      * rewrite open_when_closed_ok by exact Hc.
        split; [reflexivity | right; reflexivity].
      * rewrite open_when_closed_irq_fails by assumption.
        split; [reflexivity | left; reflexivity].
    + left. rewrite open_when_open by exact Ho. split; reflexivity.
  - unfold axi_fpga_read.
    destruct (negb (truthy (dev_open (drv k))));
      [left; split; reflexivity |].
    destruct (wait_event_interruptible _ sig);
      [| left; split; reflexivity].
    right. right. right. left. split; reflexivity.
  - left. unfold axi_fpga_poll, bind, get_drv, ret.
    destruct (negb (truthy (dev_open (drv k)))); split; reflexivity.
  - left. apply mmap_keeps_rest.
  - left. apply ioctl_keeps_rest.
  - destruct (Z.eq_dec (dev_open (drv k)) 0) as [Hc | Ho].
    + left. rewrite release_when_closed by exact Hc. split; reflexivity.
    + right. right. left. rewrite release_when_open by exact Ho.
      split; [exact Ho | split; reflexivity].
  - destruct (irq_action k) eqn:Hirq; [| left; split; [reflexivity | exact Hirq]].
    right. right. right. right. split; [reflexivity | exact Hirq].
Qed.

Lemma enter_same_geometry (c : entry) (k : kernel) :
  same_geometry (drv k) (drv (enter c k)).
Proof.
  destruct (enter_effect c k) as
    [[-> _] | [(_ & -> & _) | [(_ & -> & _) | [[-> _] | [-> _]]]]];
    repeat split.
Qed.

Lemma enter_session_inv (c : entry) (k : kernel) :
  session_inv k -> session_inv (enter c k).
Proof.
  intros (Hopen & Hflag & Hirq). unfold session_inv.
  destruct (enter_effect c k) as
    [[-> ->] | [(Hc & -> & Hi) | [(_ & -> & ->) | [[-> ->] | [-> ->]]]]];
    cbn [dev_open irq_happened set_dev_open atomic_set_irq_happened];
    repeat split; auto.
  discriminate.
Qed.

(** X10.  No sequence of entries into the driver (file operations in
    any order, with any arguments and any answers of the kernel, and
    interrupts) changes the geometry of the device: register window,
    buffer pages, buffer order and interrupt number stay what they
    were, and so do the buffer length and the size mmap expects. *)
Theorem geometry_never_changes (cs : list entry) (k : kernel) :
  same_geometry (drv k) (drv (enter_all cs k)) /\
  buffer_length (drv (enter_all cs k)) = buffer_length (drv k) /\
  expected_size (drv (enter_all cs k)) = expected_size (drv k).
Proof.
  assert (Hgeo : same_geometry (drv k) (drv (enter_all cs k))).
  { revert k. induction cs as [| c cs IH]; intros k.
    - repeat split.
    - cbn [enter_all fold_left].
      specialize (IH (enter c k)). unfold enter_all in IH.
      destruct IH as (H1 & H2 & H3 & H4 & H5 & H6).
      destruct (enter_same_geometry c k) as (G1 & G2 & G3 & G4 & G5 & G6).
      repeat split; congruence. }
  split; [exact Hgeo |].
  destruct Hgeo as (H1 & H2 & H3 & H4 & H5 & H6).
  unfold expected_size, buffer_length. rewrite H2, H5. auto.
Qed.

(** X11.  From a state where [dev_open] and [irq_happened] are 0 or 1
    and the handler is installed only if the device is marked open,
    every sequence of entries leads to such a state: the interrupt
    handler is never left installed on a device marked closed. *)
Theorem session_inv_preserved (cs : list entry) (k : kernel) :
  session_inv k -> session_inv (enter_all cs k).
Proof.
  revert k. induction cs as [| c cs IH]; intros k Hinv.
  - exact Hinv.
  - cbn [enter_all fold_left]. apply IH. apply enter_session_inv.
    exact Hinv.
Qed.

Lemma session_inv_preserved_witness :
  session_inv
    (enter_all [call_open (- EBUSY); raise_irq; call_release; call_open 0;
                raise_irq; call_read false; call_poll]
       closed_kernel).
Proof.
  apply (session_inv_preserved
           [call_open (- EBUSY); raise_irq; call_release; call_open 0;
            raise_irq; call_read false; call_poll] closed_kernel).
  split; [left; reflexivity |].
  split; [left; reflexivity |]. simpl. discriminate.
Defined.

(** *** Accounting of read returns *)

Lemma wakeups_cons (l : label) (ls : list label) :
  wakeups (l :: ls) = (wakeups [l] + wakeups ls)%nat.
Proof.
  destruct l as [| | [|] |]; reflexivity.
Qed.

(** One step raises the number of successful returns plus the pending
    event by at most what the step contributes. *)
Lemma step_accounting (s s' : sys) (l : label) :
  step s l s' ->
  (successes (returned s') + pending s'
   <= successes (returned s) + pending s + wakeups [l])%nat.
Proof.
  intros Hstep.
  destruct Hstep as
    [s Hirq | s Hpc Hclosed | s Hpc Hopen | s sig r Hpc Hw | s r Hpc];
    unfold pending; cbn [consumer kern returned with_kern successes wakeups].
  - destruct (consumer s); cbn;
      destruct (irq_happened (drv (kern s)) =? 1); lia.
  - rewrite Hpc. replace (- EIO =? 0) with false by reflexivity. lia.
  - rewrite Hpc. lia.
  - rewrite Hpc. unfold wait_event_interruptible in Hw.
    destruct (irq_happened (drv (kern s)) =? 1); [lia |].
    destruct sig; [lia | discriminate].
  - rewrite Hpc. cbn. lia.
Qed.

Lemma steps_accounting (s s' : sys) (ls : list label) :
  steps s ls s' ->
  (successes (returned s') + pending s'
   <= successes (returned s) + pending s + wakeups ls)%nat.
Proof.
  intros Hsteps. induction Hsteps as [s | s l s1 ls s2 Hs _ IH].
  - simpl. lia.
  - rewrite wakeups_cons. apply step_accounting in Hs. lia.
Qed.

(** X12.  In every run of the interrupt handler against the reader
    (any interleaving, closed or open device), starting with no event
    latched and the consumer outside read, the number of reads that
    returned 0 during the run is at most the number of interrupts and
    signals in it: no read returns 0 without an interrupt or a signal
    of its own, however the steps interleave. *)
Theorem read_returns_bounded_by_wakeups (s s' : sys) (ls : list label) :
  steps s ls s' ->
  consumer s = Idle ->
  irq_happened (drv (kern s)) <> 1 ->
  (successes (returned s') <= successes (returned s) + wakeups ls)%nat.
Proof.
  intros Hsteps Hpc Hflag. apply steps_accounting in Hsteps.
  assert (Hp : pending s = O).
  { unfold pending. rewrite Hpc. apply Z.eqb_neq in Hflag.
    rewrite Hflag. reflexivity. }
  lia.
Qed.

Lemma read_returns_bounded_by_wakeups_witness :
  (successes
     (returned {| kern := cleared latched_kernel; consumer := Idle;
                  returned := [0%Z] |})
   <= successes [] + wakeups [Irq; Irq; CallRead; Resume false; Finish])%nat.
Proof.
  apply (read_returns_bounded_by_wakeups
           {| kern := open_kernel; consumer := Idle; returned := [] |}
           {| kern := cleared latched_kernel; consumer := Idle;
              returned := [0%Z] |}
           [Irq; Irq; CallRead; Resume false; Finish]).
  - apply run_steps. reflexivity.
  - reflexivity.
  - vm_compute. discriminate.
Defined.

(** *** Probe *)

Example probe_sample :
  axi_fpga_drv_probe sample_probe_env =
    {| probe_ret := 0; probe_drvdata := Some sample_drvdata;
       misc_registered := true; sysfs_group := true |}.
Proof. reflexivity. Qed.

(** X13.  The probe returns 0 exactly when the three resources are
    there and [devm_kzalloc], [devm_request_mem_region] and
    [alloc_pages] succeed; otherwise it returns [-ENODEV], [-ENOMEM]
    or -1 and registers nothing.  The results of [misc_register] and
    [sysfs_create_group] never reach the return value: when one of
    them fails the probe still returns 0, with the misc device or the
    attribute group missing. *)
Theorem probe_outcome (e : probe_env) :
  let r := axi_fpga_drv_probe e in
  (probe_ret r = 0 <->
   mem0 e <> None /\ mem1 e <> None /\ irq0 e <> None /\
   kzalloc_ok e = true /\ mem_region_ok e = true /\
   alloc_pages_res e <> None) /\
  (probe_ret r = 0 \/ probe_ret r = - ENODEV \/ probe_ret r = - ENOMEM \/
   probe_ret r = -1) /\
  (probe_ret r <> 0 -> misc_registered r = false /\ sysfs_group r = false) /\
  (probe_ret r = 0 ->
   misc_registered r = (misc_register_res e =? 0) /\
   sysfs_group r = (sysfs_create_group_res e =? 0)).
Proof.
  cbv zeta. unfold axi_fpga_drv_probe, probe_fails.
  destruct (mem0 e) as [control |], (mem1 e) as [buffer |],
    (irq0 e) as [irq |], (kzalloc_ok e), (mem_region_ok e),
    (alloc_pages_res e) as [pfn |];
    cbn [negb probe_ret misc_registered sysfs_group];
    unfold ENODEV, ENOMEM;
    (split; [split; [intros H; try discriminate H; repeat split;
                     discriminate
                    | intros (H1 & H2 & H3 & H4 & H5 & H6);
                      try reflexivity; try discriminate;
                      exfalso; auto] |]);
    (split; [auto |]);
    (split; [intros H; try (exfalso; apply H; reflexivity); auto
            | intros H; try discriminate H; auto]).
Qed.

(** X14.  A probe that returns 0 leaves a device that is closed with
    no event latched.  Its register window starts at the start of the
    first memory resource and is [end - start + 1] bytes long; its
    buffer order is the end of the second memory resource plus one;
    [slave_phys_addr] is the physical address of the first buffer
    page; its interrupt is the start of the interrupt resource
    converted to [int] (the start itself below 2^31, negative from
    there on).  On that device the first open succeeds (when
    [request_irq] does), and then poll reports nothing and a read
    sleeps. *)
Theorem probe_success_state (e : probe_env) :
  probe_ret (axi_fpga_drv_probe e) = 0 ->
  exists d control buffer irq pfn,
    probe_drvdata (axi_fpga_drv_probe e) = Some d /\
    mem0 e = Some control /\ mem1 e = Some buffer /\ irq0 e = Some irq /\
    alloc_pages_res e = Some pfn /\
    dev_open d = 0 /\
    irq_happened d = 0 /\
    dev_physaddr d = res_start control /\
    dev_size d = u32 (res_end control - res_start control + 1) /\
    fpga_buffer_npages d = u32 (res_end buffer + 1) /\
    fpga_buffer_pages d = pfn /\
    slave_phys_addr d = page_to_phys pfn /\
    irq_number d = s32 (res_start irq) /\
    session_inv (boot d) /\
    fst (axi_fpga_open 0 (boot d)) = 0 /\
    fst (axi_fpga_poll (snd (axi_fpga_open 0 (boot d)))) = 0 /\
    axi_fpga_read false (snd (axi_fpga_open 0 (boot d))) = None.
Proof.
  unfold axi_fpga_drv_probe, probe_fails.
  destruct (mem0 e) as [control |]; [| discriminate].
  destruct (mem1 e) as [buffer |]; [| discriminate].
  destruct (irq0 e) as [irq |]; [| discriminate].
  destruct (kzalloc_ok e); [| discriminate].
  destruct (mem_region_ok e); [| discriminate].
  destruct (alloc_pages_res e) as [pfn |]; [| discriminate].
  cbn [negb probe_ret probe_drvdata]. intros _.
  eexists _, control, buffer, irq, pfn.
  split; [reflexivity |].
  repeat (split; [reflexivity |]).
  split.
  { unfold session_inv. cbn. repeat split; auto. discriminate. }
  repeat split.
Qed.

Lemma probe_success_state_witness :
  exists d control buffer irq pfn,
    probe_drvdata (axi_fpga_drv_probe sample_probe_env) = Some d /\
    mem0 sample_probe_env = Some control /\
    mem1 sample_probe_env = Some buffer /\
    irq0 sample_probe_env = Some irq /\
    alloc_pages_res sample_probe_env = Some pfn /\
    dev_open d = 0 /\
    irq_happened d = 0 /\
    dev_physaddr d = res_start control /\
    dev_size d = u32 (res_end control - res_start control + 1) /\
    fpga_buffer_npages d = u32 (res_end buffer + 1) /\
    fpga_buffer_pages d = pfn /\
    slave_phys_addr d = page_to_phys pfn /\
    irq_number d = s32 (res_start irq) /\
    session_inv (boot d) /\
    fst (axi_fpga_open 0 (boot d)) = 0 /\
    fst (axi_fpga_poll (snd (axi_fpga_open 0 (boot d)))) = 0 /\
    axi_fpga_read false (snd (axi_fpga_open 0 (boot d))) = None.
Proof.
  apply (probe_success_state sample_probe_env). reflexivity.
Defined.

(** *** The sysfs attributes *)

Lemma chomp_append_newline (s : String.string) :
  chomp (String.append s newline) = Some s.
Proof.
  induction s as [| c rest IH].
  - reflexivity.
  - cbn [String.append chomp]. rewrite IH.
    destruct rest; reflexivity.
Qed.

Lemma to_int_not_nil (z : Z) :
  Z.to_int z <> Decimal.Pos Decimal.Nil /\
  Z.to_int z <> Decimal.Neg Decimal.Nil.
Proof.
  destruct z as [| p | p]; cbn [Z.to_int]; split; try discriminate;
    intros H; injection H as H;
    exact (DecimalPos.Unsigned.to_uint_nonnil p H).
Qed.

Lemma read_sprintf_ld (v : Z) :
  read_attribute (snd (sprintf_ld v)) = Some (as_long v).
Proof.
  unfold read_attribute, sprintf_ld. cbn [snd].
  rewrite chomp_append_newline.
  destruct (to_int_not_nil (as_long v)) as [Hp Hn].
  rewrite (DecimalString.NilZero.isi _ Hp Hn).
  rewrite DecimalZ.of_to. reflexivity.
Qed.

Lemma as_long_small (v : Z) : 0 <= v < 2 ^ 31 -> as_long v = v.
Proof.
  intros Hv. unfold as_long, u32.
  rewrite Z.mod_small by lia.
  destruct (Z.ltb_spec v (2 ^ 31)); lia.
Qed.

Lemma buffer_length_range (d : axi_fpga_drvdata) :
  0 <= buffer_length d < 2 ^ 32.
Proof.
  unfold buffer_length, u32. apply Z.mod_pos_bound. lia.
Qed.

(** X15.  Each attribute is the decimal text of its value followed by
    a newline, and the show function returns the length of that text.
    Read back, [phys_addr] gives [slave_phys_addr], [buffer_length]
    gives 2^order pages in bytes and [control_length] gives
    [dev_size], each as the [long] that [%ld] prints: the value itself
    below 2^31, and the value minus 2^32 (a negative number) from 2^31
    on. *)
Theorem sysfs_attributes_read_back (d : axi_fpga_drvdata) :
  read_attribute (snd (axi_fpga_get_phys_addr d))
    = Some (as_long (slave_phys_addr d)) /\
  read_attribute (snd (axi_fpga_get_buffer_length d))
    = Some (as_long (buffer_length d)) /\
  read_attribute (snd (axi_fpga_get_control_length d))
    = Some (as_long (dev_size d)) /\
  (forall v, 0 <= v < 2 ^ 31 -> as_long v = v) /\
  (forall v, 2 ^ 31 <= v < 2 ^ 32 -> as_long v = v - 2 ^ 32) /\
  fst (axi_fpga_get_phys_addr d)
    = Z.of_nat (String.length (snd (axi_fpga_get_phys_addr d))) /\
  fst (axi_fpga_get_buffer_length d)
    = Z.of_nat (String.length (snd (axi_fpga_get_buffer_length d))) /\
  fst (axi_fpga_get_control_length d)
    = Z.of_nat (String.length (snd (axi_fpga_get_control_length d))).
Proof.
  unfold axi_fpga_get_phys_addr, axi_fpga_get_buffer_length,
    axi_fpga_get_control_length.
  rewrite !read_sprintf_ld.
  repeat split.
  - apply as_long_small.
  - intros v Hv. unfold as_long, u32. rewrite Z.mod_small by lia.
    destruct (Z.ltb_spec v (2 ^ 31)); lia.
Qed.

Example sysfs_sample_buffer_length :
  read_attribute (snd (axi_fpga_get_buffer_length sample_drvdata))
    = Some 16384 /\
  fst (axi_fpga_get_buffer_length sample_drvdata) = 6.
Proof. split; reflexivity. Qed.

(** X16.  The attributes describe the mapping the driver accepts.  On
    an open device whose register window and buffer together stay
    below 2^31 bytes, a caller who reads [control_length] and
    [buffer_length] and maps their sum from offset 0 passes the
    geometry check: with both [remap_pfn_range] calls succeeding mmap
    returns 0, and the buffer bytes are backed by physical memory
    from the address [phys_addr] shows. *)
Theorem sysfs_lengths_give_accepted_mapping
  (k : kernel) (vma : vm_area_struct) (c b p : Z) :
  dev_open (drv k) <> 0 ->
  0 <= dev_size (drv k) ->
  dev_size (drv k) + buffer_length (drv k) < 2 ^ 31 ->
  0 <= slave_phys_addr (drv k) < 2 ^ 31 ->
  slave_phys_addr (drv k) = page_to_phys (fpga_buffer_pages (drv k)) ->
  0 <= Z.shiftl (fpga_buffer_pages (drv k)) PAGE_SHIFT < 2 ^ 32 ->
  read_attribute (snd (axi_fpga_get_control_length (drv k))) = Some c ->
  read_attribute (snd (axi_fpga_get_buffer_length (drv k))) = Some b ->
  read_attribute (snd (axi_fpga_get_phys_addr (drv k))) = Some p ->
  vm_pgoff vma = 0 ->
  vm_end vma - vm_start vma = c + b ->
  fst (fst (axi_fpga_mmap 0 0 vma k)) = 0 /\
  forall o, 0 <= o < b ->
    option_map fst
      (translate (page_table (snd (axi_fpga_mmap 0 0 vma k))) (c + o))
    = Some (p + o).
Proof.
  intros Hopen Hd Hfit Hp Hphys Hpfn Hc Hb Hpa Hoff Hlen.
  pose proof (buffer_length_range (drv k)) as Hbl.
  unfold axi_fpga_get_control_length, axi_fpga_get_buffer_length,
    axi_fpga_get_phys_addr in Hc, Hb, Hpa.
  rewrite read_sprintf_ld in Hc, Hb, Hpa.
  rewrite as_long_small in Hc by lia.
  rewrite as_long_small in Hb by lia.
  rewrite as_long_small in Hpa by lia.
  injection Hc as <-. injection Hb as <-. injection Hpa as <-.
  assert (Hsz : u32 (vm_end vma - vm_start vma) = expected_size (drv k)).
  { rewrite Hlen. reflexivity. }
  rewrite (mmap_success_page_table vma k Hopen Hoff Hsz).
  cbn [fst snd page_table]. split; [reflexivity |].
  intros o Ho. cbn [translate pr_addr pr_len pr_pfn pr_prot].
  replace (dev_size (drv k) <=? dev_size (drv k) + o) with true
    by (symmetry; apply Z.leb_le; lia).
  replace (dev_size (drv k) + o <? dev_size (drv k) + buffer_length (drv k))
    with true by (symmetry; apply Z.ltb_lt; lia).
  cbn [andb option_map fst]. f_equal.
  rewrite Hphys. unfold page_to_phys, u32.
  rewrite Z.mod_small by lia. lia.
Qed.

Lemma sysfs_lengths_give_accepted_mapping_witness :
  fst (fst (axi_fpga_mmap 0 0 sample_vma open_kernel)) = 0 /\
  forall o, 0 <= o < 16384 ->
    option_map fst
      (translate (page_table (snd (axi_fpga_mmap 0 0 sample_vma open_kernel)))
         (4096 + o))
    = Some (520093696 + o).
Proof.
  apply (sysfs_lengths_give_accepted_mapping
           open_kernel sample_vma 4096 16384 520093696).
  - vm_compute. discriminate.
  - vm_compute. discriminate.
  - reflexivity.
  - split; [vm_compute; discriminate | reflexivity].
  - reflexivity.
  - split; [vm_compute; discriminate | reflexivity].
  - reflexivity.
  - reflexivity.
  - reflexivity.
  - reflexivity.
  - reflexivity.
Defined.

(** *** Exclusion and races *)

Lemma enter_keeps_open (c : entry) (k : kernel) :
  dev_open (drv k) <> 0 ->
  c <> call_release ->
  dev_open (drv (enter c k)) = dev_open (drv k) /\
  irq_action (enter c k) = irq_action k.
Proof.
  intros Hopen Hc.
  destruct c as [irq_res | sig | | res1 res2 vma | e cmd b | |];
    cbn [enter].
  - rewrite open_when_open by exact Hopen. split; reflexivity.
  - unfold axi_fpga_read.
    destruct (negb (truthy (dev_open (drv k)))); [split; reflexivity |].
    destruct (wait_event_interruptible _ sig); split; reflexivity.
  - rewrite poll_when_open by exact Hopen. split; reflexivity.
  - destruct (mmap_keeps_rest res1 res2 vma k) as [-> ->].
    split; reflexivity.
  - destruct (ioctl_keeps_rest e cmd b k) as [-> ->]. split; reflexivity.
  - contradiction.
  - destruct (irq_action k) eqn:Hirq; split; try reflexivity; exact Hirq.
Qed.

(** X17.  While the device is marked open, nothing but release ends
    the session: after any sequence of entries without a release
    (further opens, reads, polls, mmaps, control calls, interrupts)
    [dev_open] and the state of the interrupt line are what they
    were, and one more open is refused with [-EBUSY]. *)
Theorem open_session_excludes_others
  (cs : list entry) (k : kernel) (irq_res : Z) :
  dev_open (drv k) <> 0 ->
  Forall (fun c => c <> call_release) cs ->
  dev_open (drv (enter_all cs k)) = dev_open (drv k) /\
  irq_action (enter_all cs k) = irq_action k /\
  fst (axi_fpga_open irq_res (enter_all cs k)) = - EBUSY.
Proof.
  intros Hopen Hcs.
  assert (H : dev_open (drv (enter_all cs k)) = dev_open (drv k) /\
              irq_action (enter_all cs k) = irq_action k).
  { revert k Hopen. induction Hcs as [| c cs Hc _ IH]; intros k Hopen.
    - split; reflexivity.
    - cbn [enter_all fold_left].
      destruct (enter_keeps_open c k Hopen Hc) as [Hd Hi].
      assert (Hopen' : dev_open (drv (enter c k)) <> 0) by congruence.
      destruct (IH (enter c k) Hopen') as [Hd' Hi'].
      unfold enter_all in Hd', Hi'. split; congruence. }
  destruct H as [Hd Hi]. split; [exact Hd |]. split; [exact Hi |].
  rewrite open_when_open by congruence. reflexivity.
Qed.

Lemma open_session_excludes_others_witness :
  dev_open
    (drv (enter_all [call_open 0; raise_irq; call_read false; call_poll]
            open_kernel))
    = dev_open (drv open_kernel) /\
  irq_action
    (enter_all [call_open 0; raise_irq; call_read false; call_poll]
       open_kernel)
    = irq_action open_kernel /\
  fst (axi_fpga_open 0
         (enter_all [call_open 0; raise_irq; call_read false; call_poll]
            open_kernel)) = - EBUSY.
Proof.
  apply (open_session_excludes_others
           [call_open 0; raise_irq; call_read false; call_poll]
           open_kernel 0).
  - vm_compute. discriminate.
  - repeat constructor; discriminate.
Defined.

(** X18.  An interrupt that arrives after the reader has left the
    wait and before it stores 0 in [irq_happened] is absorbed.  With
    one interrupt before the read and any number during that window,
    the read returns 0 once, the event is cleared, and the next read
    sleeps: the later interrupts produce no return of their own. *)
Theorem interrupt_during_read_absorbed (s : sys) (n : nat) :
  session_open (kern s) ->
  consumer s = Idle ->
  exists s1,
    steps s ([Irq; CallRead; Resume false] ++ repeat Irq n ++ [Finish]) s1 /\
    returned s1 = 0 :: returned s /\
    consumer s1 = Idle /\
    irq_happened (drv (kern s1)) = 0 /\
    axi_fpga_read false (kern s1) = None.
Proof.
  intros [Hopen Hirq] Hpc.
  set (k1 := latched (kern s)).
  set (s_woken := {| kern := k1; consumer := AfterWait 0;
                     returned := returned s |}).
  assert (Hhead : steps s [Irq; CallRead; Resume false] s_woken).
  { apply run_steps. cbn [run]. unfold exec at 1. rewrite Hirq.
    unfold exec at 1. cbn [with_kern consumer kern]. rewrite Hpc.
    apply truthy_true in Hopen.
    change (dev_open (drv (snd (axi_fpga_irq_handler (kern s)))))
      with (dev_open (drv (kern s))).
    rewrite Hopen. reflexivity. }
  assert (Hirqs : steps s_woken (repeat Irq n) s_woken).
  { destruct n as [| n]; [constructor |].
    apply run_steps. rewrite run_irqs by exact Hirq. reflexivity. }
  exists {| kern := cleared k1; consumer := Idle;
            returned := 0 :: returned s |}.
  split.
  - eapply steps_app; [exact Hhead |].
    eapply steps_app; [exact Hirqs |].
    econstructor; [| constructor].
    apply (step_finish s_woken 0). reflexivity.
  - repeat split. apply read_blocks; [exact Hopen | simpl; discriminate].
Qed.

Lemma interrupt_during_read_absorbed_witness :
  exists s1,
    steps {| kern := open_kernel; consumer := Idle; returned := [] |}
      ([Irq; CallRead; Resume false] ++ repeat Irq 2 ++ [Finish]) s1 /\
    returned s1 = [0] /\
    consumer s1 = Idle /\
    irq_happened (drv (kern s1)) = 0 /\
    axi_fpga_read false (kern s1) = None.
Proof.
  apply (interrupt_during_read_absorbed
           {| kern := open_kernel; consumer := Idle; returned := [] |} 2).
  - split; [vm_compute; discriminate | reflexivity].
  - reflexivity.
Defined.

(** *** The geometry check against the exact size *)

Example probe_wrapping :
  probe_drvdata (axi_fpga_drv_probe wrapping_probe_env)
    = Some wrapping_drvdata.
Proof. reflexivity. Qed.

(** An interrupt resource that starts at 0xffffffff is stored as -1. *)
Example probe_irq_number_is_int :
  option_map irq_number
    (probe_drvdata
       (axi_fpga_drv_probe
          {| mem0 := mem0 sample_probe_env;
             mem1 := mem1 sample_probe_env;
             irq0 := Some {| res_start := 4294967295;
                             res_end := 4294967295 |};
             kzalloc_ok := true;
             mem_region_ok := true;
             alloc_pages_res := Some 126976;
             misc_register_res := 0;
             sysfs_create_group_res := 0 |}))
    = Some (-1).
Proof. reflexivity. Qed.



